(** * The Jira tool dispatcher of mcp-atlassian

    A shallow embedding of [call_tool] from
    [src/mcp_atlassian/jira/jira_server.py]: the Python values that reach the
    handler, the builtins it applies to them, the Jira service it calls and
    the handler itself, written in a small monad that threads the record of
    the service calls made and the exception in flight.  Logging
    ([logger.debug], [logger.error]) changes neither the result nor the
    calls and is left out. *)

From Stdlib Require Import ZArith List String Ascii Bool Lia.
From Stdlib Require Import Floats.SpecFloat.
Import ListNotations.

#[local] Open Scope string_scope.
#[local] Open Scope list_scope.
#[local] Set Warnings "-register-all".

(** ** Exceptions *)

(** The classes that matter to [except Exception]: the first group derives
    from [Exception], the second from [BaseException] only. *)
Inductive exc_class : Type :=
| RuntimeError
| ValueError
| TypeError
| OverflowError
| AttributeError
| OtherException (name : string)
| KeyboardInterrupt
| SystemExit
| GeneratorExit
| OtherBaseException (name : string).

(** An exception object: its class and [str(e)]. *)
Record exc : Type := Exc { exc_class_of : exc_class; exc_str : string }.

(** [isinstance(e, Exception)]. *)
Definition isinstance_Exception (e : exc) : bool :=
  match exc_class_of e with
  | RuntimeError | ValueError | TypeError | OverflowError | AttributeError
  | OtherException _ => true
  | KeyboardInterrupt | SystemExit | GeneratorExit
  | OtherBaseException _ => false
  end.

(** The outcome of evaluating an expression: it raises or it has a value. *)
Definition outcome (A : Type) : Type := (exc + A)%type.

(** ** Values *)

(** The values the handler can be given and can be handed back by the
    service.  A [dict] is a list of string-keyed items in insertion order
    (its first item for a key is the one looked up); an object carries its
    class name and its attributes; a callable of no argument carries what
    calling it does. *)
Inductive pyval : Type :=
| PNone
| PBool (b : bool)
| PInt (z : Z)
| PFloat (f : spec_float)
| PStr (s : string)
| PList (l : list pyval)
| PDict (d : list (string * pyval))
| PObj (cls : string) (attrs : list (string * pyval))
| PCallable (result : exc + pyval).

(** [type(v).__name__] *)
Definition type_name (v : pyval) : string :=
  match v with
  | PNone => "NoneType"
  | PBool _ => "bool"
  | PInt _ => "int"
  | PFloat _ => "float"
  | PStr _ => "str"
  | PList _ => "list"
  | PDict _ => "dict"
  | PObj cls _ => cls
  | PCallable _ => "method"
  end.

(** [isinstance(v, dict)] *)
Definition isinstance_dict (v : pyval) : bool :=
  match v with PDict _ => true | _ => false end.

(** First item of an association list under a key. *)
Fixpoint assoc {A : Type} (k : string) (l : list (string * A)) : option A :=
  match l with
  | [] => None
  | (k', v) :: l' => if k' =? k then Some v else assoc k l'
  end.

(** [d.get(key, default)]; [d.get(key)] is [dict_get d key PNone]. *)
Definition dict_get (d : list (string * pyval)) (key : string)
    (default : pyval) : pyval :=
  match assoc key d with
  | Some v => v
  | None => default
  end.

(** Attribute lookup.  Of the attribute names the handler probes
    ([to_simplified_dict], [issues], [total], [start_at], [max_results])
    none exists on a builtin type, so only objects answer. *)
Definition py_getattr (v : pyval) (name : string) : option pyval :=
  match v with
  | PObj _ attrs => assoc name attrs
  | _ => None
  end.

(** [hasattr(v, name)] *)
Definition hasattr (v : pyval) (name : string) : bool :=
  match py_getattr v name with Some _ => true | None => false end.

(** [getattr(v, name, default)] *)
Definition getattr (v : pyval) (name : string) (default : pyval) : pyval :=
  match py_getattr v name with Some a => a | None => default end.

(** [v.name] *)
Definition py_attr (v : pyval) (name : string) : outcome pyval :=
  match py_getattr v name with
  | Some a => inr a
  | None =>
      inl (Exc AttributeError
             ("'" ++ type_name v ++ "' object has no attribute '" ++ name ++ "'"))
  end.

(** [f()] *)
Definition py_call (f : pyval) : outcome pyval :=
  match f with
  | PCallable r => r
  | _ => inl (Exc TypeError ("'" ++ type_name f ++ "' object is not callable"))
  end.

(** The items a [for] loop over [v] visits. *)
Definition py_iter (v : pyval) : outcome (list pyval) :=
  match v with
  | PList l => inr l
  | PDict d => inr (map (fun kv => PStr (fst kv)) d)
  | PStr s => inr (map (fun c => PStr (String c EmptyString)) (list_ascii_of_string s))
  | _ => inl (Exc TypeError ("'" ++ type_name v ++ "' object is not iterable"))
  end.

(** [len(l)] of a list *)
Definition len (l : list pyval) : Z := Z.of_nat (List.length l).

(** [int(f)] of a float: truncation toward zero. *)
Definition float_to_int (f : spec_float) : outcome Z :=
  match f with
  | S754_zero _ => inr 0%Z
  | S754_infinity _ =>
      inl (Exc OverflowError "cannot convert float infinity to integer")
  | S754_nan => inl (Exc ValueError "cannot convert float NaN to integer")
  | S754_finite s m e =>
      let magnitude := Z.shiftl (Z.pos m) e in
      inr (if s then (- magnitude)%Z else magnitude)
  end.

(** The parts of the Python runtime the handler relies on and that are kept
    abstract: parsing a [str] as a decimal integer, [repr] of a [str], and
    [json.dumps(v, indent=2)], which raises on a value it cannot
    serialize. *)
Class Runtime : Type := {
  str_to_int : string -> option Z;
  str_repr : string -> string;
  json_dumps : pyval -> outcome string
}.

(** [int(v)] *)
Definition py_int `{Runtime} (v : pyval) : outcome Z :=
  match v with
  | PBool b => inr (if b then 1 else 0)%Z
  | PInt z => inr z
  | PFloat f => float_to_int f
  | PStr s =>
      match str_to_int s with
      | Some z => inr z
      | None =>
          inl (Exc ValueError
                 ("invalid literal for int() with base 10: " ++ str_repr s))
      end
  | _ =>
      inl (Exc TypeError
             ("int() argument must be a string, a bytes-like object or a real number, not '"
                ++ type_name v ++ "'"))
  end.

(** ** The Jira service *)

(** The two operations of [JiraService] the handler calls.  Each returns an
    upstream object or raises. *)
Class JiraService : Type := {
  get_issue : pyval -> pyval -> pyval -> pyval -> outcome pyval;
  search_issues : pyval -> pyval -> Z -> Z -> outcome pyval
}.

(** A call made to the service, with the arguments it was given:
    [get_issue(issue_key, fields=, expand=, comment_limit=)] and
    [search_issues(jql, fields=, limit=, start=)]. *)
Inductive service_call : Type :=
| GetIssue (issue_key fields expand comment_limit : pyval)
| SearchIssues (jql fields : pyval) (limit start : Z).

(** ** The monad of the handler *)

(** A computation takes the calls made so far and gives its outcome and the
    calls made by the end. *)
Definition M (A : Type) : Type :=
  list service_call -> outcome A * list service_call.

Definition ret {A : Type} (a : A) : M A := fun calls => (inr a, calls).

Definition raise {A : Type} (e : exc) : M A := fun calls => (inl e, calls).

Definition bind {A B : Type} (m : M A) (k : A -> M B) : M B :=
  fun calls =>
    match m calls with
    | (inr a, calls') => k a calls'
    | (inl e, calls') => (inl e, calls')
    end.

(** An expression that touches no service. *)
Definition lift {A : Type} (o : outcome A) : M A := fun calls => (o, calls).

(** [try: body  except Exception as e: handler(e)] *)
Definition try_except_Exception {A : Type} (body : M A) (handler : exc -> M A)
    : M A :=
  fun calls =>
    match body calls with
    | (inl e, calls') =>
        if isinstance_Exception e then handler e calls' else (inl e, calls')
    | r => r
    end.

Declare Scope py_scope.
Delimit Scope py_scope with py.
Notation "x <- m ;; k" := (bind m (fun x => k))
  (at level 61, m at next level, right associativity) : py_scope.

(** Left-to-right traversal, stopping at the first element that raises. *)
Fixpoint mapM {A B : Type} (f : A -> outcome B) (l : list A)
    : outcome (list B) :=
  match l with
  | [] => inr []
  | x :: l' =>
      match f x with
      | inl e => inl e
      | inr y =>
          match mapM f l' with
          | inl e => inl e
          | inr ys => inr (y :: ys)
          end
      end
  end.

(** Running a computation from a fresh invocation: no call made yet. *)
Definition run {A : Type} (m : M A) : outcome A * list service_call := m [].

(** ** The handler *)

(** [mcp.types.TextContent] *)
Record TextContent : Type := { type : string; text : string }.

(** The default of [fields] in both tools. *)
Definition default_fields : string :=
  "summary,description,status,assignee,reporter,labels,priority,created,updated,issuetype".

Section Handler.

Context {runtime : Runtime} {jira_service : JiraService}.

(** [jira_service.get_issue(issue_key, fields=fields, expand=expand,
    comment_limit=comment_limit)], recorded. *)
Definition call_get_issue (issue_key fields expand comment_limit : pyval)
    : M pyval :=
  fun calls =>
    (get_issue issue_key fields expand comment_limit,
     calls ++ [GetIssue issue_key fields expand comment_limit]).

(** [jira_service.search_issues(jql, fields=fields, limit=limit,
    start=start_at)], recorded. *)
Definition call_search_issues (jql fields : pyval) (limit start_at : Z)
    : M pyval :=
  fun calls =>
    (search_issues jql fields limit start_at,
     calls ++ [SearchIssues jql fields limit start_at]).

(** [issue.to_simplified_dict() if hasattr(issue, "to_simplified_dict")
    else issue] (lines 111 and 130). *)
Definition simplified (issue : pyval) : outcome pyval :=
  if hasattr issue "to_simplified_dict" then
    match py_attr issue "to_simplified_dict" with
    | inr method => py_call method
    | inl e => inl e
    end
  else inr issue.

(** The block under [# Format results] (lines 129 to 142): the value bound
    to [response]. *)
Definition format_results (search_result : pyval) : M pyval :=
  (if hasattr search_result "issues" then
     container <- lift (py_attr search_result "issues") ;;
     items <- lift (py_iter container) ;;
     issues <- lift (mapM simplified items) ;;
     ret (PDict [("total", getattr search_result "total" (PInt 0));
                 ("start_at", getattr search_result "start_at" (PInt 0));
                 ("max_results",
                  getattr search_result "max_results" (PInt (len issues)));
                 ("issues", PList issues)])
   else ret search_result)%py.

(** The body of the [try] statement (lines 94 to 147). *)
Definition call_tool_body (name : string) (arguments : pyval)
    : M (list TextContent) :=
  (match arguments with
   | PDict d =>
       if name =? "jira_get_issue" then
         let issue_key := dict_get d "issue_key" PNone in
         let fields := dict_get d "fields" (PStr default_fields) in
         let expand := dict_get d "expand" PNone in
         let comment_limit := dict_get d "comment_limit" (PInt 10) in
         issue <- call_get_issue issue_key fields expand comment_limit ;;
         result <- lift (simplified issue) ;;
         dumped <- lift (json_dumps result) ;;
         ret [{| type := "text"; text := dumped |}]
       else if name =? "jira_search" then
         let jql := dict_get d "jql" PNone in
         let fields := dict_get d "fields" (PStr default_fields) in
         n <- lift (py_int (dict_get d "limit" (PInt 10))) ;;
         let limit := Z.min n 50 in
         start_at <- lift (py_int (dict_get d "startAt" (PInt 0))) ;;
         search_result <- call_search_issues jql fields limit start_at ;;
         response <- format_results search_result ;;
         dumped <- lift (json_dumps response) ;;
         ret [{| type := "text"; text := dumped |}]
       else raise (Exc ValueError ("Unknown tool: " ++ name))
   | _ => raise (Exc RuntimeError "arguments must be dictionary")
   end)%py.

(** [call_tool]: the body under [except Exception as e], which raises
    [RuntimeError(f"Caught Exception. Error: {str(e)}")]. *)
Definition call_tool (name : string) (arguments : pyval)
    : M (list TextContent) :=
  try_except_Exception
    (call_tool_body name arguments)
    (fun e => raise (Exc RuntimeError ("Caught Exception. Error: " ++ exc_str e))).

End Handler.

(** ** The catalogue *)

(** [mcp.types.Tool] *)
Record Tool : Type := {
  name : string;
  description : string;
  inputSchema : pyval
}.

(** A property of an input schema: [{"type": ty, "description": descr}]. *)
Definition schema_property (ty descr : string) : pyval :=
  PDict [("type", PStr ty); ("description", PStr descr)].

(** [list_tools] (lines 32 to 87). *)
Definition list_tools : list Tool :=
  [ {| name := "jira_get_issue";
       description :=
         "Get details of a specific Jira issue including its Epic links and relationship information";
       inputSchema :=
         PDict
           [("type", PStr "object");
            ("properties",
             PDict
               [("issue_key",
                 schema_property "string" "Jira issue key (e.g., 'PROJ-123')");
                ("fields",
                 schema_property "string"
                   "Fields to return. Can be a comma-separated list, '*all' for all fields, or omitted for essential fields only");
                ("expand",
                 schema_property "string"
                   "Optional fields to expand. Examples: 'renderedFields', 'transitions', 'changelog'");
                ("comment_limit",
                 schema_property "number"
                   "Maximum number of comments to include (0 or null for no comments)")]);
            ("required", PList [PStr "issue_key"])] |};
    {| name := "jira_search";
       description := "Search Jira issues using JQL (Jira Query Language)";
       inputSchema :=
         PDict
           [("type", PStr "object");
            ("properties",
             PDict
               [("jql",
                 schema_property "string"
                   "JQL query string (Jira Query Language)");
                ("fields",
                 schema_property "string"
                   "Comma-separated fields to return in the results");
                ("limit",
                 schema_property "number" "Maximum number of results (1-50)");
                ("startAt",
                 schema_property "number"
                   "Starting index for pagination (0-based)")]);
            ("required", PList [PStr "jql"])] |} ].

(** The parameter names under ["required"] in the schema of the tool called
    [tool_name]. *)
Definition required_parameters (tool_name : string) : list string :=
  match find (fun t => name t =? tool_name) list_tools with
  | Some t =>
      match inputSchema t with
      | PDict schema =>
          match assoc "required" schema with
          | Some (PList names) =>
              flat_map (fun v => match v with PStr s => [s] | _ => [] end) names
          | _ => []
          end
      | _ => []
      end
  | None => []
  end.

(** ** Fixtures

    A runtime and services to run the handler on in the examples.  The
    runtime reads plain decimal literals, quotes with single quotes, and
    serializes [None], booleans, integers, strings, lists and dicts with the
    two-space layout of [json.dumps(v, indent=2)]; floats are outside what
    the examples serialize and are refused like objects. *)
Module Fixture.

Definition digit_of (c : ascii) : option Z :=
  let n := Z.of_N (N_of_ascii c) in
  if ((48 <=? n) && (n <=? 57))%Z then Some (n - 48)%Z else None.

Fixpoint digits (s : string) (acc : Z) : option Z :=
  match s with
  | EmptyString => Some acc
  | String c s' =>
      match digit_of c with
      | Some d => digits s' (10 * acc + d)%Z
      | None => None
      end
  end.

Definition decimal (s : string) : option Z :=
  match s with
  | EmptyString => None
  | String "-" (String c s') => option_map Z.opp (digits (String c s') 0)
  | String "+" (String c s') => digits (String c s') 0
  | _ => digits s 0
  end.

Definition quoted (s : string) : string := "'" ++ s ++ "'".

Fixpoint decimal_digits (fuel : nat) (n : Z) (acc : string) : string :=
  match fuel with
  | O => acc
  | S fuel' =>
      let d := ascii_of_N (Z.to_N (48 + n mod 10)) in
      if (n <? 10)%Z then String d acc
      else decimal_digits fuel' (n / 10)%Z (String d acc)
  end.

Definition show_int (z : Z) : string :=
  let digits := decimal_digits (S (Z.to_nat (Z.log2 (Z.abs z)))) (Z.abs z) "" in
  if (z <? 0)%Z then "-" ++ digits else digits.

Fixpoint spaces (n : nat) : string :=
  match n with O => "" | S n' => " " ++ spaces n' end.

Definition newline : string := String (ascii_of_nat 10) "".

Definition json_string (s : string) : string :=
  String (ascii_of_nat 34) (s ++ String (ascii_of_nat 34) "").

(** The lines of a container, joined by a comma and a line break. *)
Fixpoint joined (indent : nat) (lines : list string) : string :=
  match lines with
  | [] => ""
  | [x] => spaces indent ++ x
  | x :: rest => spaces indent ++ x ++ "," ++ newline ++ joined indent rest
  end.

Fixpoint dumps (indent : nat) (v : pyval) : outcome string :=
  match v with
  | PNone => inr "null"
  | PBool b => inr (if b then "true" else "false")
  | PInt z => inr (show_int z)
  | PStr s => inr (json_string s)
  | PList [] => inr "[]"
  | PList l =>
      match mapM (dumps (2 + indent)) l with
      | inl e => inl e
      | inr lines =>
          inr ("[" ++ newline ++ joined (2 + indent) lines ++ newline
                 ++ spaces indent ++ "]")%string
      end
  | PDict [] => inr "{}"
  | PDict d =>
      match
        mapM (fun kv =>
                match dumps (2 + indent) (snd kv) with
                | inl e => inl e
                | inr s => inr (json_string (fst kv) ++ ": " ++ s)%string
                end) d
      with
      | inl e => inl e
      | inr lines =>
          inr ("{" ++ newline ++ joined (2 + indent) lines ++ newline
                 ++ spaces indent ++ "}")%string
      end
  | _ =>
      inl (Exc TypeError
             ("Object of type " ++ type_name v ++ " is not JSON serializable"))
  end.

Definition runtime : Runtime :=
  {| str_to_int := decimal; str_repr := quoted; json_dumps := dumps 0 |}.

(** An upstream issue that can simplify itself. *)
Definition issue (key : string) : pyval :=
  PObj "JiraIssue"
    [("key", PStr key);
     ("to_simplified_dict", PCallable (inr (PDict [("key", PStr key)])))].

(** An upstream page of two issues that echoes the window asked for. *)
Definition page (limit start : Z) : pyval :=
  PObj "JiraSearchResult"
    [("issues", PList [issue "PROJ-1"; issue "PROJ-2"]);
     ("total", PInt 2);
     ("start_at", PInt start);
     ("max_results", PInt limit)].

(** A service that answers every request. *)
Definition service : JiraService :=
  {| get_issue issue_key _ _ _ :=
       inr (match issue_key with PStr key => issue key | _ => issue "" end);
     search_issues _ _ limit start := inr (page limit start) |}.

(** A service whose every operation raises [e]. *)
Definition failing (e : exc) : JiraService :=
  {| get_issue _ _ _ _ := inl e; search_issues _ _ _ _ := inl e |}.

(** A service whose results have none of the attributes the handler
    probes. *)
Definition plain : JiraService :=
  {| get_issue issue_key _ _ _ := inr (PDict [("key", issue_key)]);
     search_issues _ _ _ _ := inr (PDict [("issues", PList [])]) |}.

End Fixture.

(** ** Construction of the service

    [JiraService.__init__] of [src/mcp_atlassian/jira/service.py]. *)

(** What the constructor takes from the [config] and [client] modules: the
    instances of [JiraConfig] and their truth value, the call
    [JiraConfig(url=, auth_type=, personal_token=, ssl_verify=)], and
    [JiraClient.__init__(config=)], reached through [super()]. *)
Class ClientModule : Type := {
  JiraConfig : Type;
  config_bool : JiraConfig -> bool;
  new_JiraConfig : string -> string -> string -> bool -> outcome JiraConfig;
  JiraClient_init : option JiraConfig -> outcome unit
}.

(** What a run of the constructor does that can be seen from outside, in
    order. *)
Inductive init_event `{ClientModule} : Type :=
| Warned (message : string)
| ConfigBuilt (url auth_type personal_token : string) (ssl_verify : bool)
| ClientInitialized (config : option JiraConfig).

(** Truth value of an argument annotated [str = None]. *)
Definition str_bool (s : option string) : bool :=
  match s with
  | Some (String _ _) => true
  | _ => false
  end.

(** Truth value of an argument annotated [JiraConfig = None]. *)
Definition optional_config_bool `{ClientModule} (config : option JiraConfig)
    : bool :=
  match config with
  | Some c => config_bool c
  | None => false
  end.

(** [f"https://api.atlassian.com/ex/jira/{cloud_id}"] (line 55) *)
Definition jira_url (cloud_id : string) : string :=
  "https://api.atlassian.com/ex/jira/" ++ cloud_id.

(** [JiraService.__init__] (lines 44 to 70): the outcome of the call and
    the events of the run. *)
Definition JiraService_init `{ClientModule} (access_token : option string)
    (config : option JiraConfig) (cloud_id : option string)
    : outcome unit * list init_event :=
  match access_token with
  | Some token =>
      if str_bool access_token && negb (optional_config_bool config) then
        match cloud_id with
        | Some id =>
            if str_bool cloud_id then
              let url := jira_url id in
              let auth_type := "oauth" in
              match new_JiraConfig url auth_type token true with
              | inl e => (inl e, [ConfigBuilt url auth_type token true])
              | inr built =>
                  (JiraClient_init (Some built),
                   [ConfigBuilt url auth_type token true;
                    ClientInitialized (Some built)])
              end
            else (inr tt, [Warned "No JIRA_URL or cloud_id provided"])
        | None => (inr tt, [Warned "No JIRA_URL or cloud_id provided"])
        end
      else (JiraClient_init config, [ClientInitialized config])
  | None => (JiraClient_init config, [ClientInitialized config])
  end.

(** The events of a run in which the client was initialized. *)
Definition client_initializations `{ClientModule} (events : list init_event)
    : list (option JiraConfig) :=
  flat_map (fun ev => match ev with ClientInitialized c => [c] | _ => [] end)
    events.

(** A client module for the examples: a config is the record of its four
    keyword arguments and is true, and the client refuses to start without
    one. *)
Module ClientFixture.

Record config : Type := {
  url : string;
  auth_type : string;
  personal_token : string;
  ssl_verify : bool
}.

Definition module : ClientModule :=
  {| JiraConfig := config;
     config_bool _ := true;
     new_JiraConfig u a t s :=
       inr {| url := u; auth_type := a; personal_token := t; ssl_verify := s |};
     JiraClient_init c :=
       match c with
       | Some _ => inr tt
       | None => inl (Exc ValueError "Missing required JIRA_URL environment variable")
       end |}.

End ClientFixture.

(** ** The parameters a tool declares *)

(** The names under ["properties"] in the schema of the tool called
    [tool_name]. *)
Definition declared_properties (tool_name : string) : list string :=
  match find (fun t => name t =? tool_name) list_tools with
  | Some t =>
      match inputSchema t with
      | PDict schema =>
          match assoc "properties" schema with
          | Some (PDict properties) => map fst properties
          | _ => []
          end
      | _ => []
      end
  | None => []
  end.

(** Two argument dicts hold the same thing under each of the keys. *)
Definition agree_on (keys : list string) (d d' : list (string * pyval))
    : Prop :=
  forall key, In key keys -> assoc key d = assoc key d'.

(** ** Kinds of values *)

(** [None] and the numbers: values no [for] loop can visit. *)
Definition is_scalar (v : pyval) : bool :=
  match v with
  | PNone | PBool _ | PInt _ | PFloat _ => true
  | _ => false
  end.

(** Plain data: values that cannot be called. *)
Definition is_data (v : pyval) : bool :=
  match v with
  | PObj _ _ | PCallable _ => false
  | _ => true
  end.

(** ** Vocabulary of the statements *)


Definition absent_or_empty (d : list (string * pyval)) (key : string) : Prop :=
  assoc key d = None \/ assoc key d = Some (PStr "").

(** The first positional argument of a call: the issue key or the query. *)
Definition first_argument (c : service_call) : pyval :=
  match c with
  | GetIssue issue_key _ _ _ => issue_key
  | SearchIssues jql _ _ _ => jql
  end.

(** What the service answers to a call. *)
Definition answer `{JiraService} (c : service_call) : outcome pyval :=
  match c with
  | GetIssue issue_key fields expand comment_limit =>
      get_issue issue_key fields expand comment_limit
  | SearchIssues jql fields limit start => search_issues jql fields limit start
  end.

Example fixture_get_issue :
  run (@call_tool Fixture.runtime Fixture.service "jira_get_issue"
         (PDict [("issue_key", PStr "PROJ-7")])) =
  (inr [{| type := "text";
           text := "{" ++ Fixture.newline ++ "  " ++ Fixture.json_string "key"
                     ++ ": " ++ Fixture.json_string "PROJ-7"
                     ++ Fixture.newline ++ "}" |}],
   [GetIssue (PStr "PROJ-7") (PStr default_fields) PNone (PInt 10)]).
Proof. vm_compute. reflexivity. Qed.

Example fixture_search :
  run (@call_tool Fixture.runtime Fixture.service "jira_search"
         (PDict [("jql", PStr "project = PROJ"); ("limit", PStr "75");
                 ("startAt", PBool true)])) =
  (inr [{| type := "text";
           text :=
             match
               Fixture.dumps 0
                 (PDict [("total", PInt 2); ("start_at", PInt 1);
                         ("max_results", PInt 50);
                         ("issues",
                          PList [PDict [("key", PStr "PROJ-1")];
                                 PDict [("key", PStr "PROJ-2")]])])
             with
             | inr dumped => dumped
             | inl _ => ""
             end |}],
   [SearchIssues (PStr "project = PROJ") (PStr default_fields) 50 1]).
Proof. vm_compute. reflexivity. Qed.

(** [int(10.5) == 10], [int(-2.5) == -2], [int(3e0) == 3]. *)
Example float_to_int_truncates :
  float_to_int (S754_finite false 21 (-1)) = inr 10%Z /\
  float_to_int (S754_finite true 5 (-1)) = inr (-2)%Z /\
  float_to_int (S754_finite false 3 0) = inr 3%Z.
Proof. repeat split. Qed.

Example uncoercible_limit_calls_nothing :
  run (@call_tool Fixture.runtime Fixture.service "jira_search"
         (PDict [("jql", PStr "project = PROJ"); ("limit", PNone)])) =
  (inl (Exc RuntimeError
          "Caught Exception. Error: int() argument must be a string, a bytes-like object or a real number, not 'NoneType'"),
   []).
Proof. reflexivity. Qed.

(** ** What the handler does, branch by branch *)

Section Branches.

Context {runtime : Runtime} {jira_service : JiraService}.

(** The exception the [except] clause raises for a caught [e]. *)
Lemma call_tool_outcome (tool : string) (arguments : pyval) :
  run (call_tool tool arguments) =
  match run (call_tool_body tool arguments) with
  | (inl e, calls) =>
      (inl (if isinstance_Exception e
            then Exc RuntimeError ("Caught Exception. Error: " ++ exc_str e)
            else e), calls)
  | r => r
  end.
Proof.
  unfold run, call_tool, try_except_Exception, raise.
  destruct (call_tool_body tool arguments []) as [[e | r] calls];
    [destruct (isinstance_Exception e) |]; reflexivity.
Qed.

(** The calls made are those of the body: the [except] clause makes none. *)
Lemma call_tool_calls (tool : string) (arguments : pyval) :
  snd (run (call_tool tool arguments)) =
  snd (run (call_tool_body tool arguments)).
Proof.
  rewrite call_tool_outcome.
  destruct (run (call_tool_body tool arguments)) as [[e | r] calls]; reflexivity.
Qed.

Lemma body_not_dict (tool : string) (arguments : pyval) :
  isinstance_dict arguments = false ->
  run (call_tool_body tool arguments) =
  (inl (Exc RuntimeError "arguments must be dictionary"), []).
Proof.
  destruct arguments; simpl; intros Hd; try discriminate; reflexivity.
Qed.

Lemma body_unknown_tool (tool : string) (d : list (string * pyval)) :
  tool <> "jira_get_issue" -> tool <> "jira_search" ->
  run (call_tool_body tool (PDict d)) =
  (inl (Exc ValueError ("Unknown tool: " ++ tool)), []).
Proof.
  intros Hg Hs. unfold run, call_tool_body.
  apply String.eqb_neq in Hg, Hs. rewrite Hg, Hs. reflexivity.
Qed.

(** The [jira_get_issue] branch: one call, then simplification, then
    serialization. *)
Lemma body_get_issue (d : list (string * pyval)) :
  run (call_tool_body "jira_get_issue" (PDict d)) =
  let issue_key := dict_get d "issue_key" PNone in
  let fields := dict_get d "fields" (PStr default_fields) in
  let expand := dict_get d "expand" PNone in
  let comment_limit := dict_get d "comment_limit" (PInt 10) in
  (match get_issue issue_key fields expand comment_limit with
   | inl e => inl e
   | inr issue =>
       match simplified issue with
       | inl e => inl e
       | inr result =>
           match json_dumps result with
           | inl e => inl e
           | inr dumped => inr [{| type := "text"; text := dumped |}]
           end
       end
   end,
   [GetIssue issue_key fields expand comment_limit]).
Proof.
  unfold run, call_tool_body. cbn [String.eqb Ascii.eqb Bool.eqb].
  unfold bind, call_get_issue, lift, ret. cbn [app].
  destruct (get_issue _ _ _ _) as [e | issue]; [reflexivity |].
  destruct (simplified issue) as [e | result]; [reflexivity |].
  destruct (json_dumps result); reflexivity.
Qed.

(** [format_results] makes no call. *)
Lemma format_results_calls (search_result : pyval) (calls : list service_call) :
  snd (format_results search_result calls) = calls.
Proof.
  unfold format_results, bind, lift, ret.
  destruct (hasattr search_result "issues"); [| reflexivity].
  destruct (py_attr search_result "issues") as [e | container]; [reflexivity |].
  destruct (py_iter container) as [e | items]; [reflexivity |].
  destruct (mapM simplified items); reflexivity.
Qed.

(** The [jira_search] branch when [limit] or [startAt] does not coerce:
    no call is made. *)
Lemma body_search_uncoerced (d : list (string * pyval)) (e : exc) :
  (py_int (dict_get d "limit" (PInt 10)) = inl e \/
   (exists n, py_int (dict_get d "limit" (PInt 10)) = inr n) /\
   py_int (dict_get d "startAt" (PInt 0)) = inl e) ->
  run (call_tool_body "jira_search" (PDict d)) = (inl e, []).
Proof.
  unfold run, call_tool_body. cbn [String.eqb Ascii.eqb Bool.eqb].
  unfold bind, lift.
  intros [Hl | [[n Hl] Hs]]; rewrite Hl; [reflexivity |].
  rewrite Hs. reflexivity.
Qed.

(** The [jira_search] branch when both coerce: one call, then the
    formatting of the results, then serialization. *)
Lemma body_search (d : list (string * pyval)) (n start_at : Z) :
  py_int (dict_get d "limit" (PInt 10)) = inr n ->
  py_int (dict_get d "startAt" (PInt 0)) = inr start_at ->
  run (call_tool_body "jira_search" (PDict d)) =
  let jql := dict_get d "jql" PNone in
  let fields := dict_get d "fields" (PStr default_fields) in
  let calls := [SearchIssues jql fields (Z.min n 50) start_at] in
  (match search_issues jql fields (Z.min n 50) start_at with
   | inl e => inl e
   | inr search_result =>
       match fst (format_results search_result calls) with
       | inl e => inl e
       | inr response =>
           match json_dumps response with
           | inl e => inl e
           | inr dumped => inr [{| type := "text"; text := dumped |}]
           end
       end
   end,
   calls).
Proof.
  intros Hl Hs. unfold run, call_tool_body.
  cbn [String.eqb Ascii.eqb Bool.eqb].
  unfold bind at 1. unfold lift at 1. rewrite Hl.
  unfold bind at 1. unfold lift at 1. rewrite Hs.
  unfold bind at 1. unfold call_search_issues. cbn [app].
  destruct (search_issues _ _ _ _) as [e | search_result]; [reflexivity |].
  unfold bind at 1.
  pose proof (format_results_calls search_result
                [SearchIssues (dict_get d "jql" PNone)
                   (dict_get d "fields" (PStr default_fields))
                   (Z.min n 50) start_at]) as Hc.
  cbv zeta.
  destruct (format_results search_result _) as [[e | response] calls'];
    cbn [fst snd] in *; subst calls'; [reflexivity |].
  unfold bind, lift, ret.
  destruct (json_dumps response); reflexivity.
Qed.

End Branches.

(** ** The calls an invocation makes *)

Section Calls.

Context {runtime : Runtime} {jira_service : JiraService}.

Lemma get_issue_calls (d : list (string * pyval)) :
  snd (run (call_tool "jira_get_issue" (PDict d))) =
  [GetIssue (dict_get d "issue_key" PNone)
     (dict_get d "fields" (PStr default_fields))
     (dict_get d "expand" PNone)
     (dict_get d "comment_limit" (PInt 10))].
Proof. rewrite call_tool_calls, body_get_issue. reflexivity. Qed.

Lemma search_calls (d : list (string * pyval)) (n start_at : Z) :
  py_int (dict_get d "limit" (PInt 10)) = inr n ->
  py_int (dict_get d "startAt" (PInt 0)) = inr start_at ->
  snd (run (call_tool "jira_search" (PDict d))) =
  [SearchIssues (dict_get d "jql" PNone)
     (dict_get d "fields" (PStr default_fields)) (Z.min n 50) start_at].
Proof.
  intros Hl Hs. rewrite call_tool_calls, (body_search d n start_at Hl Hs).
  reflexivity.
Qed.

(** Every call to [search_issues] comes from the [jira_search] branch with
    both coercions done. *)
Lemma search_call_inv (tool : string) (arguments : pyval)
    (jql fields : pyval) (limit start_at : Z) :
  In (SearchIssues jql fields limit start_at)
     (snd (run (call_tool tool arguments))) ->
  exists d n,
    arguments = PDict d /\ tool = "jira_search" /\
    py_int (dict_get d "limit" (PInt 10)) = inr n /\
    py_int (dict_get d "startAt" (PInt 0)) = inr start_at /\
    jql = dict_get d "jql" PNone /\
    fields = dict_get d "fields" (PStr default_fields) /\
    limit = Z.min n 50.
Proof.
  intros Hin.
  destruct (isinstance_dict arguments) eqn:Hd.
  2:{ rewrite call_tool_calls, (body_not_dict tool arguments Hd) in Hin.
      destruct Hin. }
  destruct arguments; try discriminate.
  destruct (String.eqb_spec tool "jira_get_issue") as [-> | Hg].
  { rewrite get_issue_calls in Hin.
    destruct Hin as [Heq | []]. discriminate. }
  destruct (String.eqb_spec tool "jira_search") as [-> | Hsr].
  2:{ rewrite call_tool_calls, (body_unknown_tool tool d Hg Hsr) in Hin.
      destruct Hin. }
  destruct (py_int (dict_get d "limit" (PInt 10))) as [e | n] eqn:Hl.
  { rewrite call_tool_calls, (body_search_uncoerced d e) in Hin
      by (left; exact Hl).
    destruct Hin. }
  destruct (py_int (dict_get d "startAt" (PInt 0))) as [e | s] eqn:Hs.
  { rewrite call_tool_calls, (body_search_uncoerced d e) in Hin
      by (right; split; [exists n; exact Hl | exact Hs]).
    destruct Hin. }
  rewrite (search_calls d n s Hl Hs) in Hin.
  destruct Hin as [Heq | []]. injection Heq as <- <- <- <-.
  exists d, n. repeat split; assumption.
Qed.

Lemma required_parameters_inv (tool key : string) :
  In key (required_parameters tool) ->
  (tool = "jira_get_issue" /\ key = "issue_key") \/
  (tool = "jira_search" /\ key = "jql").
Proof.
  unfold required_parameters, list_tools. cbn [find name].
  rewrite (String.eqb_sym "jira_get_issue"), (String.eqb_sym "jira_search").
  destruct (String.eqb_spec tool "jira_get_issue") as [-> | Hg].
  { cbn. intros [<- | []]. left. split; reflexivity. }
  destruct (String.eqb_spec tool "jira_search") as [-> | Hs].
  { cbn. intros [<- | []]. right. split; reflexivity. }
  intros [].
Qed.

End Calls.

(** ** The uniform error *)

(** C1, as amended.  Whatever the body of [call_tool] raises, the handler
    raises in its place, with the same service calls made: an instance of
    [Exception] becomes [RuntimeError("Caught Exception. Error: " + str(e))];
    an exception that derives from [BaseException] only is not caught by
    [except Exception] and reaches the caller as it is. *)
Theorem call_tool_wraps_Exception
    (runtime : Runtime) (jira_service : JiraService)
    (tool : string) (arguments : pyval) (e : exc) (calls : list service_call) :
  run (call_tool_body tool arguments) = (inl e, calls) ->
  run (call_tool tool arguments) =
  (inl (if isinstance_Exception e
        then Exc RuntimeError ("Caught Exception. Error: " ++ exc_str e)
        else e),
   calls).
Proof.
  intros Hbody. rewrite call_tool_outcome, Hbody. reflexivity.
Qed.

Lemma call_tool_wraps_Exception_witness :
  run (@call_tool_body Fixture.runtime
         (Fixture.failing (Exc (OtherException "HTTPError") "404 Not Found"))
         "jira_get_issue" (PDict [("issue_key", PStr "PROJ-404")])) =
  (inl (Exc (OtherException "HTTPError") "404 Not Found"),
   [GetIssue (PStr "PROJ-404") (PStr default_fields) PNone (PInt 10)]) /\
  run (@call_tool Fixture.runtime
         (Fixture.failing (Exc (OtherException "HTTPError") "404 Not Found"))
         "jira_get_issue" (PDict [("issue_key", PStr "PROJ-404")])) =
  (inl (Exc RuntimeError "Caught Exception. Error: 404 Not Found"),
   [GetIssue (PStr "PROJ-404") (PStr default_fields) PNone (PInt 10)]).
Proof.
  split; [reflexivity |].
  exact (call_tool_wraps_Exception Fixture.runtime
           (Fixture.failing (Exc (OtherException "HTTPError") "404 Not Found"))
           "jira_get_issue" (PDict [("issue_key", PStr "PROJ-404")])
           (Exc (OtherException "HTTPError") "404 Not Found")
           [GetIssue (PStr "PROJ-404") (PStr default_fields) PNone (PInt 10)]
           eq_refl).
Defined.

(** C1, as stated, fails: when the service raises [KeyboardInterrupt], the
    body raises it and so does [call_tool], unwrapped. *)
Lemma KeyboardInterrupt_escapes_call_tool :
  run (@call_tool_body Fixture.runtime
         (Fixture.failing (Exc KeyboardInterrupt ""))
         "jira_get_issue" (PDict [("issue_key", PStr "PROJ-1")])) =
  (inl (Exc KeyboardInterrupt ""),
   [GetIssue (PStr "PROJ-1") (PStr default_fields) PNone (PInt 10)]) /\
  run (@call_tool Fixture.runtime
         (Fixture.failing (Exc KeyboardInterrupt ""))
         "jira_get_issue" (PDict [("issue_key", PStr "PROJ-1")])) =
  (inl (Exc KeyboardInterrupt ""),
   [GetIssue (PStr "PROJ-1") (PStr default_fields) PNone (PInt 10)]) /\
  Exc KeyboardInterrupt "" <>
  Exc RuntimeError ("Caught Exception. Error: " ++ exc_str (Exc KeyboardInterrupt "")).
Proof.
  split; [reflexivity | split; [reflexivity | discriminate]].
Qed.

(** Conversely, an exception that leaves [call_tool] is the wrapping of an
    [Exception] of the body, or is not an [Exception]. *)
Lemma call_tool_raises_inv
    (runtime : Runtime) (jira_service : JiraService)
    (tool : string) (arguments : pyval) (e' : exc) (calls : list service_call) :
  run (call_tool tool arguments) = (inl e', calls) ->
  (exists e,
     run (call_tool_body tool arguments) = (inl e, calls) /\
     isinstance_Exception e = true /\
     e' = Exc RuntimeError ("Caught Exception. Error: " ++ exc_str e)) \/
  (run (call_tool_body tool arguments) = (inl e', calls) /\
   isinstance_Exception e' = false).
Proof.
  rewrite call_tool_outcome.
  destruct (run (call_tool_body tool arguments)) as [[e | r] calls0];
    [| discriminate].
  destruct (isinstance_Exception e) eqn:He; intros Heq;
    injection Heq as <- <-.
  - left. exists e. repeat split; assumption.
  - right. split; [reflexivity | assumption].
Qed.

(** C4.  When [arguments] is not a [dict], whatever the tool name, the
    handler raises the uniform error and has called no service. *)
Theorem non_mapping_arguments_rejected
    (runtime : Runtime) (jira_service : JiraService)
    (tool : string) (arguments : pyval) :
  isinstance_dict arguments = false ->
  run (call_tool tool arguments) =
  (inl (Exc RuntimeError
          "Caught Exception. Error: arguments must be dictionary"), []).
Proof.
  intros Hd.
  rewrite call_tool_outcome, (body_not_dict tool arguments Hd).
  reflexivity.
Qed.

Lemma non_mapping_arguments_rejected_witness :
  isinstance_dict (PList [PStr "PROJ-1"]) = false /\
  run (@call_tool Fixture.runtime Fixture.service "jira_get_issue"
         (PList [PStr "PROJ-1"])) =
  (inl (Exc RuntimeError
          "Caught Exception. Error: arguments must be dictionary"), []).
Proof.
  split; [reflexivity |].
  apply (non_mapping_arguments_rejected Fixture.runtime Fixture.service).
  reflexivity.
Defined.

(** C5.  When [arguments] is a [dict] and the tool name is neither
    [jira_get_issue] nor [jira_search], the handler raises the uniform error
    for the unknown tool, returns nothing, and has called no service. *)
Theorem unknown_tool_rejected
    (runtime : Runtime) (jira_service : JiraService)
    (tool : string) (d : list (string * pyval)) :
  tool <> "jira_get_issue" ->
  tool <> "jira_search" ->
  run (call_tool tool (PDict d)) =
  (inl (Exc RuntimeError ("Caught Exception. Error: Unknown tool: " ++ tool)),
   []).
Proof.
  intros Hg Hs.
  rewrite call_tool_outcome, (body_unknown_tool tool d Hg Hs).
  reflexivity.
Qed.

Lemma unknown_tool_rejected_witness :
  "jira_create_issue" <> "jira_get_issue" /\
  "jira_create_issue" <> "jira_search" /\
  run (@call_tool Fixture.runtime Fixture.service "jira_create_issue"
         (PDict [("summary", PStr "New issue")])) =
  (inl (Exc RuntimeError
          "Caught Exception. Error: Unknown tool: jira_create_issue"), []).
Proof.
  split; [discriminate | split; [discriminate |]].
  apply (unknown_tool_rejected Fixture.runtime Fixture.service
           "jira_create_issue" [("summary", PStr "New issue")]);
    discriminate.
Defined.

(** ** Bounds on the search window *)

(** C2, as amended.  The limit handed to [search_issues] is
    [min(int(limit), 50)]: never above 50, 50 when the coerced value is
    above 50, the coerced value itself otherwise, hence at least 1 when the
    coerced value is. *)
Theorem search_limit_capped
    (runtime : Runtime) (jira_service : JiraService)
    (tool : string) (arguments : pyval)
    (jql fields : pyval) (limit start_at : Z) :
  In (SearchIssues jql fields limit start_at)
     (snd (run (call_tool tool arguments))) ->
  (limit <= 50)%Z /\
  exists d n,
    arguments = PDict d /\
    py_int (dict_get d "limit" (PInt 10)) = inr n /\
    ((50 < n)%Z -> limit = 50%Z) /\
    ((n <= 50)%Z -> limit = n) /\
    ((1 <= n)%Z -> (1 <= limit <= 50)%Z).
Proof.
  intros Hin.
  destruct (search_call_inv tool arguments jql fields limit start_at Hin)
    as (d & n & -> & _ & Hl & _ & _ & _ & ->).
  split; [lia |].
  exists d, n. repeat split; try assumption; lia.
Qed.

Lemma search_limit_capped_witness :
  In (SearchIssues (PStr "project = PROJ") (PStr default_fields) 50 0)
     (snd (run (@call_tool Fixture.runtime Fixture.service "jira_search"
                  (PDict [("jql", PStr "project = PROJ");
                          ("limit", PInt 1000)])))) /\
  (50 <= 50)%Z.
Proof.
  assert (Hin :
    In (SearchIssues (PStr "project = PROJ") (PStr default_fields) 50 0)
       (snd (run (@call_tool Fixture.runtime Fixture.service "jira_search"
                    (PDict [("jql", PStr "project = PROJ");
                            ("limit", PInt 1000)]))))).
  { left. reflexivity. }
  split; [exact Hin |].
  exact (proj1 (search_limit_capped Fixture.runtime Fixture.service _ _ _ _ _ _
                  Hin)).
Defined.

(** C2, as stated, fails: a limit of 0 is handed to [search_issues] as 0,
    below the range from 1 to 50. *)
Lemma limit_zero_is_forwarded :
  snd (run (@call_tool Fixture.runtime Fixture.service "jira_search"
              (PDict [("jql", PStr "project = PROJ"); ("limit", PInt 0)]))) =
  [SearchIssues (PStr "project = PROJ") (PStr default_fields) 0 0] /\
  ~ (1 <= 0 <= 50)%Z.
Proof. split; [reflexivity | lia]. Qed.

(** C6, as amended.  When both [limit] and [startAt] coerce, the one call
    made hands [int(startAt)] to [search_issues] as it is, clamped neither
    upward nor downward; an integer [startAt] is forwarded unchanged
    however large. *)
Theorem search_start_at_forwarded
    (runtime : Runtime) (jira_service : JiraService)
    (d : list (string * pyval)) (n start_at : Z) :
  py_int (dict_get d "limit" (PInt 10)) = inr n ->
  py_int (dict_get d "startAt" (PInt 0)) = inr start_at ->
  snd (run (call_tool "jira_search" (PDict d))) =
  [SearchIssues (dict_get d "jql" PNone)
     (dict_get d "fields" (PStr default_fields)) (Z.min n 50) start_at] /\
  forall z, assoc "startAt" d = Some (PInt z) -> start_at = z.
Proof.
  intros Hl Hs. split; [exact (search_calls d n start_at Hl Hs) |].
  intros z Hz. unfold dict_get in Hs. rewrite Hz in Hs. cbn in Hs.
  congruence.
Qed.

Lemma search_start_at_forwarded_witness :
  snd (run (@call_tool Fixture.runtime Fixture.service "jira_search"
              (PDict [("jql", PStr "project = PROJ");
                      ("startAt", PInt 1000000000000)]))) =
  [SearchIssues (PStr "project = PROJ") (PStr default_fields) 10
     1000000000000].
Proof.
  exact (proj1 (search_start_at_forwarded Fixture.runtime Fixture.service
                  [("jql", PStr "project = PROJ");
                   ("startAt", PInt 1000000000000)] 10 1000000000000
                  eq_refl eq_refl)).
Defined.

(** C6, as stated, fails: a [startAt] of -1 is handed to [search_issues] as
    -1, which is negative. *)
Lemma negative_start_at_is_forwarded :
  snd (run (@call_tool Fixture.runtime Fixture.service "jira_search"
              (PDict [("jql", PStr "project = PROJ"); ("startAt", PInt (-1))]))) =
  [SearchIssues (PStr "project = PROJ") (PStr default_fields) 10 (-1)] /\
  ~ (0 <= -1)%Z.
Proof. split; [reflexivity | lia]. Qed.

(** ** Required parameters and defaults *)

(** C3, as amended.  The handler validates no required parameter.  For a
    tool whose required parameter is absent or empty (and, for
    [jira_search], whose [limit] and [startAt] coerce), the service is called
    exactly once, with [None] for an absent parameter and the empty string
    for an empty one; if the service raises, that exception is what the
    handler turns into its error. *)
Theorem required_parameter_not_validated
    (runtime : Runtime) (jira_service : JiraService)
    (tool key : string) (d : list (string * pyval)) :
  In key (required_parameters tool) ->
  absent_or_empty d key ->
  (tool = "jira_search" ->
   exists n start_at,
     py_int (dict_get d "limit" (PInt 10)) = inr n /\
     py_int (dict_get d "startAt" (PInt 0)) = inr start_at) ->
  exists c,
    snd (run (call_tool tool (PDict d))) = [c] /\
    first_argument c = dict_get d key PNone /\
    (first_argument c = PNone \/ first_argument c = PStr "") /\
    forall e,
      answer c = inl e ->
      fst (run (call_tool tool (PDict d))) =
      inl (if isinstance_Exception e
           then Exc RuntimeError ("Caught Exception. Error: " ++ exc_str e)
           else e).
Proof.
  intros Hreq Hkey Hcoerce.
  assert (Hval : dict_get d key PNone = PNone \/ dict_get d key PNone = PStr "").
  { unfold dict_get. destruct Hkey as [-> | ->]; [left | right]; reflexivity. }
  destruct (required_parameters_inv tool key Hreq) as [[-> ->] | [-> ->]].
  - eexists. split; [apply get_issue_calls |].
    split; [reflexivity |]. split; [exact Hval |].
    intros e He. cbn [answer] in He.
    rewrite call_tool_outcome, body_get_issue. cbv zeta.
    rewrite He. reflexivity.
  - destruct (Hcoerce eq_refl) as (n & s & Hl & Hs).
    eexists. split; [apply (search_calls d n s Hl Hs) |].
    split; [reflexivity |]. split; [exact Hval |].
    intros e He. cbn [answer] in He.
    rewrite call_tool_outcome, (body_search d n s Hl Hs). cbv zeta.
    rewrite He. reflexivity.
Qed.

Lemma required_parameter_not_validated_witness :
  In "issue_key" (required_parameters "jira_get_issue") /\
  absent_or_empty [("fields", PStr "summary")] "issue_key" /\
  exists c,
    snd (run (@call_tool Fixture.runtime
                (Fixture.failing (Exc ValueError "issue_key is required"))
                "jira_get_issue" (PDict [("fields", PStr "summary")]))) = [c] /\
    first_argument c = PNone.
Proof.
  assert (Hreq : In "issue_key" (required_parameters "jira_get_issue")).
  { left. reflexivity. }
  assert (Hkey : absent_or_empty [("fields", PStr "summary")] "issue_key").
  { left. reflexivity. }
  split; [exact Hreq | split; [exact Hkey |]].
  destruct (required_parameter_not_validated Fixture.runtime
              (Fixture.failing (Exc ValueError "issue_key is required"))
              "jira_get_issue" "issue_key" [("fields", PStr "summary")]
              Hreq Hkey)
    as (c & Hc & Hfirst & _).
  { discriminate. }
  exists c. split; assumption.
Defined.

(** C3, as stated, fails: with [issue_key] missing the handler calls
    [get_issue] with [None], and with [jql] empty it calls [search_issues]
    with the empty string; against a service that answers, both return. *)
Lemma missing_required_parameter_reaches_service :
  run (@call_tool Fixture.runtime Fixture.service "jira_get_issue" (PDict [])) =
  (inr [{| type := "text";
           text := "{" ++ Fixture.newline ++ "  " ++ Fixture.json_string "key"
                     ++ ": " ++ Fixture.json_string ""
                     ++ Fixture.newline ++ "}" |}],
   [GetIssue PNone (PStr default_fields) PNone (PInt 10)]) /\
  run (@call_tool Fixture.runtime Fixture.plain "jira_search"
         (PDict [("jql", PStr "")])) =
  (inr [{| type := "text";
           text := "{" ++ Fixture.newline ++ "  "
                     ++ Fixture.json_string "issues" ++ ": []"
                     ++ Fixture.newline ++ "}" |}],
   [SearchIssues (PStr "") (PStr default_fields) 10 0]).
Proof. split; vm_compute; reflexivity. Qed.



(** ** Normalization of the results *)

Section Traversal.

Variables (A B : Type) (f : A -> outcome B).

(** [mapM] returns exactly the element-wise images, in order. *)
Lemma mapM_Forall2 (l : list A) (l' : list B) :
  mapM f l = inr l' <-> Forall2 (fun x y => f x = inr y) l l'.
Proof.
  revert l'. induction l as [| x l IH]; intros l'; cbn [mapM].
  - split.
    + intros Heq. injection Heq as <-. constructor.
    + intros Hall. inversion Hall. reflexivity.
  - split.
    + destruct (f x) as [e | y] eqn:Hx; [discriminate |].
      destruct (mapM f l) as [e | ys] eqn:Hl; [discriminate |].
      intros Heq. injection Heq as <-.
      constructor; [exact Hx | apply IH; reflexivity].
    + intros Hall. inversion Hall as [| x0 y l0 ys Hx Hrest]; subst.
      rewrite Hx. apply IH in Hrest. rewrite Hrest. reflexivity.
Qed.

(** It returns as soon as every element has an image. *)
Lemma mapM_returns (l : list A) :
  Forall (fun x => exists y, f x = inr y) l -> exists l', mapM f l = inr l'.
Proof.
  induction 1 as [| x l [y Hx] _ [ys Hl]]; cbn [mapM].
  - exists []. reflexivity.
  - exists (y :: ys). rewrite Hx, Hl. reflexivity.
Qed.

End Traversal.

Lemma hasattr_true (v a : pyval) (attr : string) :
  py_getattr v attr = Some a -> hasattr v attr = true.
Proof. unfold hasattr. intros ->. reflexivity. Qed.

(** The response built when the result has [issues] and every issue
    simplifies. *)
Lemma format_results_issues (search_result container : pyval)
    (items issues : list pyval) (calls : list service_call) :
  py_getattr search_result "issues" = Some container ->
  py_iter container = inr items ->
  mapM simplified items = inr issues ->
  format_results search_result calls =
  (inr (PDict [("total", getattr search_result "total" (PInt 0));
               ("start_at", getattr search_result "start_at" (PInt 0));
               ("max_results",
                getattr search_result "max_results" (PInt (len issues)));
               ("issues", PList issues)]),
   calls).
Proof.
  intros Hattr Hiter Hmap. unfold format_results.
  rewrite (hasattr_true _ _ _ Hattr).
  unfold bind, lift, ret, py_attr. rewrite Hattr, Hiter, Hmap. reflexivity.
Qed.

(** Conversely, whenever a result that has [issues] gets a response, the
    response is that dict. *)
Lemma format_results_inv (search_result response : pyval)
    (calls calls' : list service_call) :
  hasattr search_result "issues" = true ->
  format_results search_result calls = (inr response, calls') ->
  exists container items issues,
    py_getattr search_result "issues" = Some container /\
    py_iter container = inr items /\
    Forall2 (fun item y => simplified item = inr y) items issues /\
    response =
    PDict [("total", getattr search_result "total" (PInt 0));
           ("start_at", getattr search_result "start_at" (PInt 0));
           ("max_results",
            getattr search_result "max_results" (PInt (len issues)));
           ("issues", PList issues)] /\
    calls' = calls.
Proof.
  intros Hhas. unfold format_results. rewrite Hhas.
  unfold hasattr in Hhas. unfold py_attr, bind, lift, ret.
  destruct (py_getattr search_result "issues") as [container |];
    [| discriminate].
  destruct (py_iter container) as [e | items] eqn:Hiter; [discriminate |].
  destruct (mapM simplified items) as [e | issues] eqn:Hmap; [discriminate |].
  intros Heq. injection Heq as <- <-.
  exists container, items, issues.
  repeat split; try assumption.
  apply mapM_Forall2. exact Hmap.
Qed.

(** An item that lacks [to_simplified_dict], or has it as a method that
    returns, simplifies. *)
Lemma simplified_returns (item : pyval) :
  hasattr item "to_simplified_dict" = false \/
  (exists result,
     py_getattr item "to_simplified_dict" = Some (PCallable (inr result))) ->
  exists y, simplified item = inr y.
Proof.
  unfold simplified, py_attr. intros [Hno | [result Hattr]].
  - rewrite Hno. exists item. reflexivity.
  - rewrite (hasattr_true _ _ _ Hattr), Hattr. exists result. reflexivity.
Qed.

(** A result whose [issues] can be visited and whose items all simplify
    gets a response, whichever of [total], [start_at] and [max_results] it
    lacks. *)
Lemma format_results_returns (search_result container : pyval)
    (items : list pyval) (calls : list service_call) :
  py_getattr search_result "issues" = Some container ->
  py_iter container = inr items ->
  Forall (fun item => exists y, simplified item = inr y) items ->
  exists response, format_results search_result calls = (inr response, calls).
Proof.
  intros Hattr Hiter Hall.
  destruct (mapM_returns _ _ simplified items Hall) as [issues Hmap].
  eexists. apply (format_results_issues _ _ _ _ _ Hattr Hiter Hmap).
Qed.

(** C8, as amended.  An issue without [to_simplified_dict] is passed
    through as it is, and one whose [to_simplified_dict] is a method gives
    what the method gives; a search result without [issues] is the response
    as it is.  No missing attribute makes the normalization fail: a result
    whose [issues] can be visited, and whose items each lack
    [to_simplified_dict] or have it as a method that returns, gets a
    response whichever of [total], [start_at] and [max_results] it lacks.
    Through the handler: an issue or search result without the attribute
    is what is serialized. *)
Theorem normalization_is_defensive
    (runtime : Runtime) (jira_service : JiraService) :
  (forall issue,
     hasattr issue "to_simplified_dict" = false ->
     simplified issue = inr issue) /\
  (forall issue result,
     py_getattr issue "to_simplified_dict" = Some (PCallable result) ->
     simplified issue = result) /\
  (forall search_result calls,
     hasattr search_result "issues" = false ->
     format_results search_result calls = (inr search_result, calls)) /\
  (forall search_result container items calls,
     py_getattr search_result "issues" = Some container ->
     py_iter container = inr items ->
     Forall (fun item =>
               hasattr item "to_simplified_dict" = false \/
               exists result,
                 py_getattr item "to_simplified_dict" =
                 Some (PCallable (inr result))) items ->
     exists response,
       format_results search_result calls = (inr response, calls)) /\
  (forall d issue dumped,
     get_issue (dict_get d "issue_key" PNone)
       (dict_get d "fields" (PStr default_fields))
       (dict_get d "expand" PNone)
       (dict_get d "comment_limit" (PInt 10)) = inr issue ->
     hasattr issue "to_simplified_dict" = false ->
     json_dumps issue = inr dumped ->
     fst (run (call_tool "jira_get_issue" (PDict d))) =
     inr [{| type := "text"; text := dumped |}]) /\
  (forall d n start_at search_result dumped,
     py_int (dict_get d "limit" (PInt 10)) = inr n ->
     py_int (dict_get d "startAt" (PInt 0)) = inr start_at ->
     search_issues (dict_get d "jql" PNone)
       (dict_get d "fields" (PStr default_fields))
       (Z.min n 50) start_at = inr search_result ->
     hasattr search_result "issues" = false ->
     json_dumps search_result = inr dumped ->
     fst (run (call_tool "jira_search" (PDict d))) =
     inr [{| type := "text"; text := dumped |}]).
Proof.
  repeat split.
  - intros issue Hno. unfold simplified. rewrite Hno. reflexivity.
  - intros issue result Hattr. unfold simplified, py_attr.
    rewrite (hasattr_true _ _ _ Hattr), Hattr. reflexivity.
  - intros search_result calls Hno. unfold format_results.
    rewrite Hno. reflexivity.
  - intros search_result container items calls Hattr Hiter Hitems.
    apply (format_results_returns _ _ _ _ Hattr Hiter).
    apply (Forall_impl _ simplified_returns Hitems).
  - intros d issue dumped Hget Hno Hdump.
    rewrite call_tool_outcome, body_get_issue. cbv zeta. rewrite Hget.
    unfold simplified. rewrite Hno, Hdump. reflexivity.
  - intros d n start_at search_result dumped Hl Hs Hsearch Hno Hdump.
    rewrite call_tool_outcome, (body_search d n start_at Hl Hs). cbv zeta.
    rewrite Hsearch. unfold format_results. rewrite Hno.
    cbn [ret fst]. rewrite Hdump. reflexivity.
Qed.

Lemma normalization_is_defensive_witness :
  hasattr (PDict [("key", PStr "PROJ-9")]) "to_simplified_dict" = false /\
  simplified (PDict [("key", PStr "PROJ-9")]) =
  inr (PDict [("key", PStr "PROJ-9")]).
Proof.
  split; [reflexivity |].
  exact (proj1 (normalization_is_defensive Fixture.runtime Fixture.plain)
           (PDict [("key", PStr "PROJ-9")]) eq_refl).
Defined.

(** C8, as stated, fails: an attribute that is there but of another kind is
    not passed through.  A search result whose [issues] is [None] makes the
    formatting raise, and the invocation ends in the uniform error after
    its call; an issue whose [to_simplified_dict] is [None] makes the
    simplification raise. *)
Lemma misshapen_attribute_raises :
  format_results (PObj "JiraSearchResult" [("issues", PNone)]) [] =
  (inl (Exc TypeError "'NoneType' object is not iterable"), []) /\
  run (@call_tool Fixture.runtime
         {| get_issue _ _ _ _ := inr PNone;
            search_issues _ _ _ _ :=
              inr (PObj "JiraSearchResult" [("issues", PNone)]) |}
         "jira_search" (PDict [("jql", PStr "project = PROJ")])) =
  (inl (Exc RuntimeError
          "Caught Exception. Error: 'NoneType' object is not iterable"),
   [SearchIssues (PStr "project = PROJ") (PStr default_fields) 10 0]) /\
  simplified (PObj "JiraIssue" [("to_simplified_dict", PNone)]) =
  inl (Exc TypeError "'NoneType' object is not callable").
Proof. repeat split. Qed.

(** C9.  When the search result has [issues] and every issue simplifies,
    the response is the dict of [total], [start_at], [max_results] and
    [issues], in this order; the three numbers are the attributes of the
    result where it has them, [max_results] is the number of issues where it
    has none, and the issues are the simplified items one for one, in the
    order of the result. *)
Theorem search_response_shape
    (search_result container : pyval) (items : list pyval)
    (calls : list service_call) :
  py_getattr search_result "issues" = Some container ->
  py_iter container = inr items ->
  Forall (fun item => exists y, simplified item = inr y) items ->
  exists total start_at max_results issues,
    format_results search_result calls =
    (inr (PDict [("total", total); ("start_at", start_at);
                 ("max_results", max_results); ("issues", PList issues)]),
     calls) /\
    Forall2 (fun item y => simplified item = inr y) items issues /\
    (forall v, py_getattr search_result "total" = Some v -> total = v) /\
    (forall v, py_getattr search_result "start_at" = Some v -> start_at = v) /\
    (forall v,
       py_getattr search_result "max_results" = Some v -> max_results = v) /\
    (py_getattr search_result "max_results" = None ->
     max_results = PInt (len items)).
Proof.
  intros Hattr Hiter Hall.
  destruct (mapM_returns _ _ simplified items Hall) as [issues Hmap].
  pose proof (proj1 (mapM_Forall2 _ _ simplified items issues) Hmap) as Hzip.
  do 3 eexists. exists issues.
  split; [apply (format_results_issues _ _ _ _ _ Hattr Hiter Hmap) |].
  split; [exact Hzip |].
  unfold getattr. repeat split.
  - intros v ->. reflexivity.
  - intros v ->. reflexivity.
  - intros v ->. reflexivity.
  - intros ->. unfold len. rewrite (Forall2_length Hzip). reflexivity.
Qed.

Lemma search_response_shape_witness :
  exists total start_at max_results issues,
    format_results
      (PObj "JiraSearchResult"
         [("issues", PList [Fixture.issue "PROJ-2"; PStr "PROJ-1"]);
          ("total", PInt 7)]) [] =
    (inr (PDict [("total", total); ("start_at", start_at);
                 ("max_results", max_results); ("issues", PList issues)]),
     []) /\
    total = PInt 7 /\ max_results = PInt 2.
Proof.
  destruct (search_response_shape
              (PObj "JiraSearchResult"
                 [("issues", PList [Fixture.issue "PROJ-2"; PStr "PROJ-1"]);
                  ("total", PInt 7)])
              (PList [Fixture.issue "PROJ-2"; PStr "PROJ-1"])
              [Fixture.issue "PROJ-2"; PStr "PROJ-1"] [] eq_refl eq_refl)
    as (total & start_at & max_results & issues & Hfmt & _ & Ht & _ & _ & Hm).
  { repeat constructor; eexists; reflexivity. }
  exists total, start_at, max_results, issues.
  split; [exact Hfmt |]. split; [apply Ht | apply Hm]; reflexivity.
Defined.

(** C10.  When the search result has [issues] and every issue simplifies,
    the [total] of the response is 0 where the result has no [total], and
    its [start_at] is 0 where the result has no [start_at]. *)
Theorem search_response_defaults
    (search_result container : pyval) (items : list pyval)
    (calls : list service_call) :
  py_getattr search_result "issues" = Some container ->
  py_iter container = inr items ->
  Forall (fun item => exists y, simplified item = inr y) items ->
  exists response,
    format_results search_result calls = (inr (PDict response), calls) /\
    (py_getattr search_result "total" = None ->
     assoc "total" response = Some (PInt 0)) /\
    (py_getattr search_result "start_at" = None ->
     assoc "start_at" response = Some (PInt 0)).
Proof.
  intros Hattr Hiter Hall.
  destruct (mapM_returns _ _ simplified items Hall) as [issues Hmap].
  eexists.
  split; [apply (format_results_issues _ _ _ _ _ Hattr Hiter Hmap) |].
  unfold getattr. split; intros ->; reflexivity.
Qed.

Lemma search_response_defaults_witness :
  exists response,
    format_results (PObj "JiraSearchResult" [("issues", PList [])]) [] =
    (inr (PDict response), []) /\
    assoc "total" response = Some (PInt 0) /\
    assoc "start_at" response = Some (PInt 0).
Proof.
  destruct (search_response_defaults
              (PObj "JiraSearchResult" [("issues", PList [])])
              (PList []) [] [] eq_refl eq_refl (Forall_nil _))
    as (response & Hfmt & Ht & Hs).
  exists response.
  split; [exact Hfmt |]. split; [apply Ht | apply Hs]; reflexivity.
Defined.

(** ** Further properties of the handler *)

Section Invocation.

Context {runtime : Runtime} {jira_service : JiraService}.

(** The calls of an invocation: none, the one of [jira_get_issue], or the
    one of [jira_search] after both coercions. *)
Lemma calls_cases (tool : string) (arguments : pyval) :
  snd (run (call_tool tool arguments)) = [] \/
  (exists d,
     arguments = PDict d /\ tool = "jira_get_issue" /\
     snd (run (call_tool tool arguments)) =
     [GetIssue (dict_get d "issue_key" PNone)
        (dict_get d "fields" (PStr default_fields))
        (dict_get d "expand" PNone)
        (dict_get d "comment_limit" (PInt 10))]) \/
  (exists d n start_at,
     arguments = PDict d /\ tool = "jira_search" /\
     py_int (dict_get d "limit" (PInt 10)) = inr n /\
     py_int (dict_get d "startAt" (PInt 0)) = inr start_at /\
     snd (run (call_tool tool arguments)) =
     [SearchIssues (dict_get d "jql" PNone)
        (dict_get d "fields" (PStr default_fields)) (Z.min n 50) start_at]).
Proof.
  destruct (isinstance_dict arguments) eqn:Hd.
  2:{ left. rewrite call_tool_calls, (body_not_dict tool arguments Hd).
      reflexivity. }
  destruct arguments; try discriminate.
  destruct (String.eqb_spec tool "jira_get_issue") as [-> | Hg].
  { right. left. exists d. repeat split. apply get_issue_calls. }
  destruct (String.eqb_spec tool "jira_search") as [-> | Hsr].
  2:{ left. rewrite call_tool_calls, (body_unknown_tool tool d Hg Hsr).
      reflexivity. }
  destruct (py_int (dict_get d "limit" (PInt 10))) as [e | n] eqn:Hl.
  { left. rewrite call_tool_calls, (body_search_uncoerced d e)
      by (left; exact Hl). reflexivity. }
  destruct (py_int (dict_get d "startAt" (PInt 0))) as [e | s] eqn:Hs.
  { left. rewrite call_tool_calls, (body_search_uncoerced d e)
      by (right; split; [exists n; exact Hl | exact Hs]). reflexivity. }
  right. right. exists d, n, s. repeat split; try assumption.
  apply (search_calls d n s Hl Hs).
Qed.

(** [int] raises nothing but instances of [Exception]. *)
Lemma py_int_raises_Exception (v : pyval) (e : exc) :
  py_int v = inl e -> isinstance_Exception e = true.
Proof.
  destruct v as [| b | z | f | s | l | d | cls attrs | r]; cbn;
    try (intros Heq; injection Heq as <-; reflexivity);
    try discriminate.
  - destruct f; cbn; try discriminate;
      intros Heq; injection Heq as <-; reflexivity.
  - destruct (str_to_int s); [discriminate |].
    intros Heq. injection Heq as <-. reflexivity.
Qed.

End Invocation.

Lemma prefix_app (p s : string) : String.prefix p (p ++ s) = true.
Proof.
  induction p as [| a p IH]; cbn.
  - destruct s; reflexivity.
  - destruct (ascii_dec a a) as [_ | Hne]; [exact IH | contradiction].
Qed.

Lemma string_app_inv (p a b : string) : (p ++ a = p ++ b)%string -> a = b.
Proof.
  induction p as [| c p IH]; cbn; intros Heq.
  - exact Heq.
  - injection Heq as Heq. exact (IH Heq).
Qed.

(** X1.  An invocation calls the service at most once, whatever the tool
    name and the arguments, and the operation called is that of the tool:
    [get_issue] only for [jira_get_issue], [search_issues] only for
    [jira_search]. *)
Theorem at_most_one_service_call
    (runtime : Runtime) (jira_service : JiraService)
    (tool : string) (arguments : pyval) :
  (List.length (snd (run (call_tool tool arguments))) <= 1)%nat /\
  forall c,
    In c (snd (run (call_tool tool arguments))) ->
    match c with
    | GetIssue _ _ _ _ => tool = "jira_get_issue"
    | SearchIssues _ _ _ _ => tool = "jira_search"
    end.
Proof.
  destruct (calls_cases tool arguments)
    as [-> | [(d & _ & Ht & ->) | (d & n & s & _ & Ht & _ & _ & ->)]].
  - split; [cbn; lia | intros c []].
  - split; [cbn; lia |]. intros c [<- | []]. exact Ht.
  - split; [cbn; lia |]. intros c [<- | []]. exact Ht.
Qed.

(** X2.  An invocation that returns has called the service exactly once and
    returns exactly one [TextContent], of type ["text"], whose text is what
    [json.dumps] gave for some value. *)
Theorem success_is_one_call_one_text
    (runtime : Runtime) (jira_service : JiraService)
    (tool : string) (arguments : pyval)
    (result : list TextContent) (calls : list service_call) :
  run (call_tool tool arguments) = (inr result, calls) ->
  exists c v dumped,
    calls = [c] /\
    json_dumps v = inr dumped /\
    result = [{| type := "text"; text := dumped |}].
Proof.
  rewrite call_tool_outcome.
  destruct (isinstance_dict arguments) eqn:Hd.
  2:{ rewrite (body_not_dict tool arguments Hd). discriminate. }
  destruct arguments; try discriminate.
  destruct (String.eqb_spec tool "jira_get_issue") as [-> | Hg].
  { rewrite body_get_issue. cbv zeta.
    destruct (get_issue _ _ _ _) as [e | issue]; [discriminate |].
    destruct (simplified issue) as [e | simple]; [discriminate |].
    destruct (json_dumps simple) as [e | dumped] eqn:Hdump; [discriminate |].
    intros Heq. injection Heq as <- <-.
    eexists. exists simple, dumped. repeat split. exact Hdump. }
  destruct (String.eqb_spec tool "jira_search") as [-> | Hsr].
  2:{ rewrite (body_unknown_tool tool d Hg Hsr). discriminate. }
  destruct (py_int (dict_get d "limit" (PInt 10))) as [e | n] eqn:Hl.
  { rewrite (body_search_uncoerced d e) by (left; exact Hl). discriminate. }
  destruct (py_int (dict_get d "startAt" (PInt 0))) as [e | s] eqn:Hs.
  { rewrite (body_search_uncoerced d e)
      by (right; split; [exists n; exact Hl | exact Hs]).
    discriminate. }
  rewrite (body_search d n s Hl Hs). cbv zeta.
  destruct (search_issues _ _ _ _) as [e | search_result]; [discriminate |].
  destruct (fst (format_results search_result _)) as [e | response];
    [discriminate |].
  destruct (json_dumps response) as [e | dumped] eqn:Hdump; [discriminate |].
  intros Heq. injection Heq as <- <-.
  eexists. exists response, dumped. repeat split. exact Hdump.
Qed.

Lemma success_is_one_call_one_text_witness :
  exists c v dumped,
    [GetIssue (PStr "PROJ-7") (PStr default_fields) PNone (PInt 10)] = [c] /\
    Fixture.dumps 0 v = inr dumped /\
    [{| type := "text";
        text := "{" ++ Fixture.newline ++ "  " ++ Fixture.json_string "key"
                  ++ ": " ++ Fixture.json_string "PROJ-7"
                  ++ Fixture.newline ++ "}" |}] =
    [{| type := "text"; text := dumped |}].
Proof.
  apply (success_is_one_call_one_text Fixture.runtime Fixture.service
           "jira_get_issue" (PDict [("issue_key", PStr "PROJ-7")])).
  vm_compute. reflexivity.
Defined.

(** X3.  The only instance of [Exception] that leaves the handler is a
    [RuntimeError] whose message starts with ["Caught Exception. Error: "]. *)
Theorem caller_sees_only_RuntimeError
    (runtime : Runtime) (jira_service : JiraService)
    (tool : string) (arguments : pyval) (e : exc) (calls : list service_call) :
  run (call_tool tool arguments) = (inl e, calls) ->
  isinstance_Exception e = true ->
  exc_class_of e = RuntimeError /\
  String.prefix "Caught Exception. Error: " (exc_str e) = true.
Proof.
  intros Hrun Hexc.
  destruct (call_tool_raises_inv _ _ _ _ _ _ Hrun)
    as [(e0 & _ & _ & ->) | [_ Hnot]].
  - split; [reflexivity | apply prefix_app].
  - congruence.
Qed.

Lemma caller_sees_only_RuntimeError_witness :
  exc_class_of
    (Exc RuntimeError "Caught Exception. Error: Unknown tool: jira_delete") =
  RuntimeError /\
  String.prefix "Caught Exception. Error: "
    (exc_str
       (Exc RuntimeError "Caught Exception. Error: Unknown tool: jira_delete")) =
  true.
Proof.
  exact (caller_sees_only_RuntimeError Fixture.runtime Fixture.service
           "jira_delete" (PDict []) _ [] eq_refl eq_refl).
Defined.

(** X4.  When [limit] does not coerce, or [limit] does and [startAt] does
    not, [jira_search] raises the uniform error carrying the message of
    [int] and has called no service. *)
Theorem search_coercion_failure_calls_nothing
    (runtime : Runtime) (jira_service : JiraService)
    (d : list (string * pyval)) (e : exc) :
  (py_int (dict_get d "limit" (PInt 10)) = inl e \/
   (exists n, py_int (dict_get d "limit" (PInt 10)) = inr n) /\
   py_int (dict_get d "startAt" (PInt 0)) = inl e) ->
  run (call_tool "jira_search" (PDict d)) =
  (inl (Exc RuntimeError ("Caught Exception. Error: " ++ exc_str e)), []).
Proof.
  intros Hfail.
  assert (Hexc : isinstance_Exception e = true).
  { destruct Hfail as [Hl | [_ Hs]];
      [exact (py_int_raises_Exception _ _ Hl)
      | exact (py_int_raises_Exception _ _ Hs)]. }
  rewrite call_tool_outcome, (body_search_uncoerced d e Hfail), Hexc.
  reflexivity.
Qed.

Lemma search_coercion_failure_calls_nothing_witness :
  run (@call_tool Fixture.runtime Fixture.service "jira_search"
         (PDict [("jql", PStr "project = PROJ"); ("limit", PInt 5);
                 ("startAt", PStr "next")])) =
  (inl (Exc RuntimeError
          "Caught Exception. Error: invalid literal for int() with base 10: 'next'"),
   []).
Proof.
  apply (search_coercion_failure_calls_nothing Fixture.runtime Fixture.service
           [("jql", PStr "project = PROJ"); ("limit", PInt 5);
            ("startAt", PStr "next")]
           (Exc ValueError "invalid literal for int() with base 10: 'next'")).
  right. split; [exists 5%Z; reflexivity | reflexivity].
Defined.

(** X5.  When the one call an invocation makes is answered by an
    exception, the invocation ends there: an [Exception] comes back as the
    uniform error, anything else as it is, and the call is not repeated. *)
Theorem service_failure_ends_invocation
    (runtime : Runtime) (jira_service : JiraService)
    (tool : string) (arguments : pyval) (c : service_call) (e : exc) :
  In c (snd (run (call_tool tool arguments))) ->
  answer c = inl e ->
  run (call_tool tool arguments) =
  (inl (if isinstance_Exception e
        then Exc RuntimeError ("Caught Exception. Error: " ++ exc_str e)
        else e),
   [c]).
Proof.
  intros Hin Hans.
  destruct (calls_cases tool arguments)
    as [Hnil | [(d & -> & -> & Hc) | (d & n & s & -> & -> & Hl & Hs & Hc)]].
  - rewrite Hnil in Hin. destruct Hin.
  - rewrite Hc in Hin. destruct Hin as [<- | []]. cbn [answer] in Hans.
    rewrite call_tool_outcome, body_get_issue. cbv zeta.
    rewrite Hans. reflexivity.
  - rewrite Hc in Hin. destruct Hin as [<- | []]. cbn [answer] in Hans.
    rewrite call_tool_outcome, (body_search d n s Hl Hs). cbv zeta.
    rewrite Hans. reflexivity.
Qed.

Lemma service_failure_ends_invocation_witness :
  run (@call_tool Fixture.runtime
         (Fixture.failing (Exc (OtherException "HTTPError") "503 Unavailable"))
         "jira_search" (PDict [("jql", PStr "project = PROJ")])) =
  (inl (Exc RuntimeError "Caught Exception. Error: 503 Unavailable"),
   [SearchIssues (PStr "project = PROJ") (PStr default_fields) 10 0]).
Proof.
  apply (service_failure_ends_invocation Fixture.runtime
           (Fixture.failing (Exc (OtherException "HTTPError") "503 Unavailable"))
           "jira_search" (PDict [("jql", PStr "project = PROJ")])
           (SearchIssues (PStr "project = PROJ") (PStr default_fields) 10 0)
           (Exc (OtherException "HTTPError") "503 Unavailable")).
  - left. reflexivity.
  - reflexivity.
Defined.

(** X6.  [jira_get_issue] from end to end: when the service returns an issue
    and the issue simplifies, the invocation has made its one call and
    returns the serialization of the simplified issue as its single text;
    when serialization raises, that exception is what the handler turns
    into its error, after the call. *)
Theorem get_issue_end_to_end
    (runtime : Runtime) (jira_service : JiraService)
    (d : list (string * pyval)) (issue simple : pyval) :
  get_issue (dict_get d "issue_key" PNone)
    (dict_get d "fields" (PStr default_fields))
    (dict_get d "expand" PNone)
    (dict_get d "comment_limit" (PInt 10)) = inr issue ->
  simplified issue = inr simple ->
  run (call_tool "jira_get_issue" (PDict d)) =
  (match json_dumps simple with
   | inr dumped => inr [{| type := "text"; text := dumped |}]
   | inl e =>
       inl (if isinstance_Exception e
            then Exc RuntimeError ("Caught Exception. Error: " ++ exc_str e)
            else e)
   end,
   [GetIssue (dict_get d "issue_key" PNone)
      (dict_get d "fields" (PStr default_fields))
      (dict_get d "expand" PNone)
      (dict_get d "comment_limit" (PInt 10))]).
Proof.
  intros Hget Hsimple.
  rewrite call_tool_outcome, body_get_issue. cbv zeta.
  rewrite Hget, Hsimple. destruct (json_dumps simple); reflexivity.
Qed.

Lemma get_issue_end_to_end_witness :
  run (@call_tool Fixture.runtime Fixture.service "jira_get_issue"
         (PDict [("issue_key", PStr "PROJ-3"); ("comment_limit", PInt 0)])) =
  (match Fixture.dumps 0 (PDict [("key", PStr "PROJ-3")]) with
   | inr dumped => inr [{| type := "text"; text := dumped |}]
   | inl e =>
       inl (if isinstance_Exception e
            then Exc RuntimeError ("Caught Exception. Error: " ++ exc_str e)
            else e)
   end,
   [GetIssue (PStr "PROJ-3") (PStr default_fields) PNone (PInt 0)]).
Proof.
  apply (get_issue_end_to_end Fixture.runtime Fixture.service
           [("issue_key", PStr "PROJ-3"); ("comment_limit", PInt 0)]
           (Fixture.issue "PROJ-3") (PDict [("key", PStr "PROJ-3")]));
    reflexivity.
Defined.

(** X7.  [jira_search] from end to end: when [limit] and [startAt] coerce,
    the service returns a result whose [issues] can be visited and every
    issue simplifies, the invocation has made its one call, with the capped
    limit, and returns the serialization of the response dict as its single
    text; when serialization raises, that exception is what the handler
    turns into its error, after the call. *)
Theorem search_end_to_end
    (runtime : Runtime) (jira_service : JiraService)
    (d : list (string * pyval)) (n start_at : Z)
    (search_result container : pyval) (items issues : list pyval) :
  py_int (dict_get d "limit" (PInt 10)) = inr n ->
  py_int (dict_get d "startAt" (PInt 0)) = inr start_at ->
  search_issues (dict_get d "jql" PNone)
    (dict_get d "fields" (PStr default_fields))
    (Z.min n 50) start_at = inr search_result ->
  py_getattr search_result "issues" = Some container ->
  py_iter container = inr items ->
  Forall2 (fun item y => simplified item = inr y) items issues ->
  run (call_tool "jira_search" (PDict d)) =
  (match
     json_dumps
       (PDict [("total", getattr search_result "total" (PInt 0));
               ("start_at", getattr search_result "start_at" (PInt 0));
               ("max_results",
                getattr search_result "max_results" (PInt (len issues)));
               ("issues", PList issues)])
   with
   | inr dumped => inr [{| type := "text"; text := dumped |}]
   | inl e =>
       inl (if isinstance_Exception e
            then Exc RuntimeError ("Caught Exception. Error: " ++ exc_str e)
            else e)
   end,
   [SearchIssues (dict_get d "jql" PNone)
      (dict_get d "fields" (PStr default_fields)) (Z.min n 50) start_at]).
Proof.
  intros Hl Hs Hsearch Hattr Hiter Hzip.
  apply mapM_Forall2 in Hzip.
  rewrite call_tool_outcome, (body_search d n start_at Hl Hs). cbv zeta.
  rewrite Hsearch, (format_results_issues _ _ _ _ _ Hattr Hiter Hzip).
  cbn [fst]. destruct (json_dumps _); reflexivity.
Qed.

Lemma search_end_to_end_witness :
  run (@call_tool Fixture.runtime Fixture.service "jira_search"
         (PDict [("jql", PStr "project = PROJ"); ("limit", PInt 200);
                 ("startAt", PInt 40)])) =
  (match
     Fixture.dumps 0
       (PDict [("total", PInt 2); ("start_at", PInt 40);
               ("max_results", PInt 50);
               ("issues",
                PList [PDict [("key", PStr "PROJ-1")];
                       PDict [("key", PStr "PROJ-2")]])])
   with
   | inr dumped => inr [{| type := "text"; text := dumped |}]
   | inl e =>
       inl (if isinstance_Exception e
            then Exc RuntimeError ("Caught Exception. Error: " ++ exc_str e)
            else e)
   end,
   [SearchIssues (PStr "project = PROJ") (PStr default_fields) 50 40]).
Proof.
  apply (search_end_to_end Fixture.runtime Fixture.service
           [("jql", PStr "project = PROJ"); ("limit", PInt 200);
            ("startAt", PInt 40)] 200 40
           (Fixture.page 50 40)
           (PList [Fixture.issue "PROJ-1"; Fixture.issue "PROJ-2"])
           [Fixture.issue "PROJ-1"; Fixture.issue "PROJ-2"]
           [PDict [("key", PStr "PROJ-1")]; PDict [("key", PStr "PROJ-2")]]);
    try reflexivity.
  repeat constructor.
Defined.

(** The traversal stops at the first element that raises, with its
    exception. *)
Lemma mapM_first_failure {A B : Type} (f : A -> outcome B)
    (done : list A) (bad : A) (rest : list A) (e : exc) :
  Forall (fun x => exists y, f x = inr y) done ->
  f bad = inl e ->
  mapM f (done ++ bad :: rest) = inl e.
Proof.
  intros Hdone Hbad.
  induction Hdone as [| x done [y Hx] _ IH]; cbn [app mapM].
  - rewrite Hbad. reflexivity.
  - rewrite Hx, IH. reflexivity.
Qed.

Lemma py_iter_raises_TypeError (v : pyval) :
  is_scalar v = true ->
  py_iter v =
  inl (Exc TypeError ("'" ++ type_name v ++ "' object is not iterable")).
Proof. destruct v; cbn; intros Hs; try discriminate; reflexivity. Qed.

(** X8.  Formatting the results fails on the first issue, in the order of
    the result, whose [to_simplified_dict] raises, and with that issue's
    exception: issues before it that simplify do not rescue the response,
    and issues after it play no part. *)
Theorem first_failing_issue_fails_the_response
    (search_result container : pyval) (done : list pyval) (bad : pyval)
    (rest : list pyval) (e : exc) (calls : list service_call) :
  py_getattr search_result "issues" = Some container ->
  py_iter container = inr (done ++ bad :: rest) ->
  Forall (fun item => exists y, simplified item = inr y) done ->
  simplified bad = inl e ->
  format_results search_result calls = (inl e, calls).
Proof.
  intros Hattr Hiter Hdone Hbad. unfold format_results.
  rewrite (hasattr_true _ _ _ Hattr).
  unfold bind, lift, py_attr. rewrite Hattr, Hiter.
  rewrite (mapM_first_failure simplified done bad rest e Hdone Hbad).
  reflexivity.
Qed.

Lemma first_failing_issue_fails_the_response_witness :
  format_results
    (PObj "JiraSearchResult"
       [("issues",
         PList [Fixture.issue "PROJ-1";
                PObj "JiraIssue"
                  [("to_simplified_dict",
                    PCallable (inl (Exc ValueError "no fields")))];
                PObj "JiraIssue"
                  [("to_simplified_dict",
                    PCallable (inl (Exc TypeError "later")))]])]) [] =
  (inl (Exc ValueError "no fields"), []).
Proof.
  apply (first_failing_issue_fails_the_response _
           (PList [Fixture.issue "PROJ-1";
                   PObj "JiraIssue"
                     [("to_simplified_dict",
                       PCallable (inl (Exc ValueError "no fields")))];
                   PObj "JiraIssue"
                     [("to_simplified_dict",
                       PCallable (inl (Exc TypeError "later")))]])
           [Fixture.issue "PROJ-1"]
           (PObj "JiraIssue"
              [("to_simplified_dict",
                PCallable (inl (Exc ValueError "no fields")))])
           [PObj "JiraIssue"
              [("to_simplified_dict",
                PCallable (inl (Exc TypeError "later")))]]);
    try reflexivity.
  repeat constructor. eexists. reflexivity.
Defined.

(** X9.  A search result that has [issues], but as [None] or a number, is
    not passed through: when [limit] and [startAt] coerce, the invocation
    makes its call and then raises the uniform error for a value that is
    not iterable. *)
Theorem scalar_issues_is_an_error
    (runtime : Runtime) (jira_service : JiraService)
    (d : list (string * pyval)) (n start_at : Z)
    (search_result container : pyval) :
  py_int (dict_get d "limit" (PInt 10)) = inr n ->
  py_int (dict_get d "startAt" (PInt 0)) = inr start_at ->
  search_issues (dict_get d "jql" PNone)
    (dict_get d "fields" (PStr default_fields))
    (Z.min n 50) start_at = inr search_result ->
  py_getattr search_result "issues" = Some container ->
  is_scalar container = true ->
  run (call_tool "jira_search" (PDict d)) =
  (inl (Exc RuntimeError
          ("Caught Exception. Error: '" ++ type_name container
             ++ "' object is not iterable")),
   [SearchIssues (dict_get d "jql" PNone)
      (dict_get d "fields" (PStr default_fields)) (Z.min n 50) start_at]).
Proof.
  intros Hl Hs Hsearch Hattr Hscalar.
  rewrite call_tool_outcome, (body_search d n start_at Hl Hs). cbv zeta.
  rewrite Hsearch. unfold format_results.
  rewrite (hasattr_true _ _ _ Hattr).
  unfold bind, lift, py_attr.
  rewrite Hattr, (py_iter_raises_TypeError container Hscalar).
  reflexivity.
Qed.

Lemma scalar_issues_is_an_error_witness :
  run (@call_tool Fixture.runtime
         {| get_issue _ _ _ _ := inr PNone;
            search_issues _ _ _ _ :=
              inr (PObj "JiraSearchResult"
                     [("issues", PNone); ("total", PInt 0)]) |}
         "jira_search" (PDict [("jql", PStr "project = NONE")])) =
  (inl (Exc RuntimeError
          "Caught Exception. Error: 'NoneType' object is not iterable"),
   [SearchIssues (PStr "project = NONE") (PStr default_fields) 10 0]).
Proof.
  apply (scalar_issues_is_an_error Fixture.runtime
           {| get_issue _ _ _ _ := inr PNone;
              search_issues _ _ _ _ :=
                inr (PObj "JiraSearchResult"
                       [("issues", PNone); ("total", PInt 0)]) |}
           [("jql", PStr "project = NONE")] 10 0
           (PObj "JiraSearchResult" [("issues", PNone); ("total", PInt 0)])
           PNone);
    reflexivity.
Defined.

(** X10.  The probe for [to_simplified_dict] does not ask whether the
    attribute can be called: an issue that has it as plain data makes
    [jira_get_issue] raise the uniform error for a value that is not
    callable, after its one call. *)
Theorem simplification_attribute_must_be_callable
    (runtime : Runtime) (jira_service : JiraService)
    (d : list (string * pyval)) (issue attribute : pyval) :
  get_issue (dict_get d "issue_key" PNone)
    (dict_get d "fields" (PStr default_fields))
    (dict_get d "expand" PNone)
    (dict_get d "comment_limit" (PInt 10)) = inr issue ->
  py_getattr issue "to_simplified_dict" = Some attribute ->
  is_data attribute = true ->
  run (call_tool "jira_get_issue" (PDict d)) =
  (inl (Exc RuntimeError
          ("Caught Exception. Error: '" ++ type_name attribute
             ++ "' object is not callable")),
   [GetIssue (dict_get d "issue_key" PNone)
      (dict_get d "fields" (PStr default_fields))
      (dict_get d "expand" PNone)
      (dict_get d "comment_limit" (PInt 10))]).
Proof.
  intros Hget Hattr Hdata.
  rewrite call_tool_outcome, body_get_issue. cbv zeta. rewrite Hget.
  unfold simplified, py_attr. rewrite (hasattr_true _ _ _ Hattr), Hattr.
  destruct attribute; try discriminate; reflexivity.
Qed.

Lemma simplification_attribute_must_be_callable_witness :
  run (@call_tool Fixture.runtime
         {| get_issue _ _ _ _ :=
              inr (PObj "JiraIssue"
                     [("to_simplified_dict", PDict [("key", PStr "PROJ-1")])]);
            search_issues _ _ _ _ := inr PNone |}
         "jira_get_issue" (PDict [("issue_key", PStr "PROJ-1")])) =
  (inl (Exc RuntimeError
          "Caught Exception. Error: 'dict' object is not callable"),
   [GetIssue (PStr "PROJ-1") (PStr default_fields) PNone (PInt 10)]).
Proof.
  apply (simplification_attribute_must_be_callable Fixture.runtime
           {| get_issue _ _ _ _ :=
                inr (PObj "JiraIssue"
                       [("to_simplified_dict",
                         PDict [("key", PStr "PROJ-1")])]);
              search_issues _ _ _ _ := inr PNone |}
           [("issue_key", PStr "PROJ-1")]
           (PObj "JiraIssue"
              [("to_simplified_dict", PDict [("key", PStr "PROJ-1")])])
           (PDict [("key", PStr "PROJ-1")]));
    reflexivity.
Defined.

(** ** The handler and the catalogue *)

(** X11.  An invocation reads its arguments only under the parameters the
    tool declares in its schema: two argument dicts that hold the same thing
    under each declared parameter give the same outcome and the same calls,
    so any other key is ignored without complaint. *)
Theorem arguments_read_only_under_declared_properties
    (runtime : Runtime) (jira_service : JiraService)
    (tool : string) (d d' : list (string * pyval)) :
  agree_on (declared_properties tool) d d' ->
  run (call_tool tool (PDict d)) = run (call_tool tool (PDict d')).
Proof.
  intros Hagree.
  destruct (String.eqb_spec tool "jira_get_issue") as [-> | Hg].
  { assert (H1 : assoc "issue_key" d = assoc "issue_key" d')
      by (apply Hagree; cbn; tauto).
    assert (H2 : assoc "fields" d = assoc "fields" d')
      by (apply Hagree; cbn; tauto).
    assert (H3 : assoc "expand" d = assoc "expand" d')
      by (apply Hagree; cbn; tauto).
    assert (H4 : assoc "comment_limit" d = assoc "comment_limit" d')
      by (apply Hagree; cbn; tauto).
    rewrite !call_tool_outcome, !body_get_issue. unfold dict_get.
    rewrite H1, H2, H3, H4. reflexivity. }
  destruct (String.eqb_spec tool "jira_search") as [-> | Hs].
  { assert (H1 : assoc "jql" d = assoc "jql" d')
      by (apply Hagree; cbn; tauto).
    assert (H2 : assoc "fields" d = assoc "fields" d')
      by (apply Hagree; cbn; tauto).
    assert (H3 : assoc "limit" d = assoc "limit" d')
      by (apply Hagree; cbn; tauto).
    assert (H4 : assoc "startAt" d = assoc "startAt" d')
      by (apply Hagree; cbn; tauto).
    unfold run, call_tool, call_tool_body, dict_get.
    rewrite H1, H2, H3, H4. reflexivity. }
  rewrite !call_tool_outcome, !(body_unknown_tool tool _ Hg Hs).
  reflexivity.
Qed.

Lemma arguments_read_only_under_declared_properties_witness :
  run (@call_tool Fixture.runtime Fixture.service "jira_search"
         (PDict [("limit", PInt 5); ("jql", PStr "project = PROJ");
                 ("comment_limit", PInt 3)])) =
  run (@call_tool Fixture.runtime Fixture.service "jira_search"
         (PDict [("jql", PStr "project = PROJ"); ("limit", PInt 5);
                 ("expand", PStr "changelog")])).
Proof.
  apply (arguments_read_only_under_declared_properties
           Fixture.runtime Fixture.service "jira_search").
  intros key Hin. cbn in Hin.
  destruct Hin as [<- | [<- | [<- | [<- | []]]]]; reflexivity.
Defined.

(** The message of an exception of [int] does not start like that of an
    unknown tool. *)
Lemma py_int_message `{Runtime} (v : pyval) (e : exc) (tool : string) :
  py_int v = inl e -> exc_str e <> ("Unknown tool: " ++ tool)%string.
Proof.
  destruct v as [| b | z | f | s | l | d | cls attrs | r]; cbn;
    try (intros Heq; injection Heq as <-; cbn; discriminate);
    try discriminate.
  - destruct f; cbn; try discriminate;
      intros Heq; injection Heq as <-; cbn; discriminate.
  - destruct (str_to_int s); [discriminate |].
    intros Heq. injection Heq as <-. cbn. discriminate.
Qed.

(** The outcome of [jira_search] when a coercion fails. *)
Lemma search_uncoerced_outcome `{Runtime} `{JiraService}
    (d : list (string * pyval)) (e : exc) :
  (py_int (dict_get d "limit" (PInt 10)) = inl e \/
   (exists n, py_int (dict_get d "limit" (PInt 10)) = inr n) /\
   py_int (dict_get d "startAt" (PInt 0)) = inl e) ->
  run (call_tool "jira_search" (PDict d)) =
  (inl (Exc RuntimeError ("Caught Exception. Error: " ++ exc_str e)), []).
Proof.
  intros Hfail.
  rewrite call_tool_outcome, (body_search_uncoerced d e Hfail).
  destruct Hfail as [Hl | [_ Hs]].
  - rewrite (py_int_raises_Exception _ _ Hl). reflexivity.
  - rewrite (py_int_raises_Exception _ _ Hs). reflexivity.
Qed.

(** X12.  The catalogue and the handler agree on the tools: with a dict of
    arguments, a name is turned down as an unknown tool exactly when
    [list_tools] does not list it. *)
Theorem unknown_tool_iff_not_listed
    (runtime : Runtime) (jira_service : JiraService)
    (tool : string) (d : list (string * pyval)) :
  run (call_tool tool (PDict d)) =
  (inl (Exc RuntimeError ("Caught Exception. Error: Unknown tool: " ++ tool)),
   []) <->
  ~ In tool (map name list_tools).
Proof.
  split.
  - intros Hrun Hin. cbn in Hin.
    destruct Hin as [<- | [<- | []]].
    + apply (f_equal snd) in Hrun. rewrite get_issue_calls in Hrun.
      discriminate.
    + destruct (calls_cases "jira_search" (PDict d))
        as [Hnil | [(? & _ & Hne & _) | (? & n & s & _ & _ & _ & _ & Hc)]].
      * destruct (py_int (dict_get d "limit" (PInt 10))) as [e | n] eqn:Hl.
        { rewrite (search_uncoerced_outcome d e) in Hrun
            by (left; exact Hl).
          injection Hrun as Hmsg.
          exact (py_int_message _ _ "jira_search" Hl Hmsg). }
        destruct (py_int (dict_get d "startAt" (PInt 0))) as [e | s] eqn:Hs.
        { rewrite (search_uncoerced_outcome d e) in Hrun
            by (right; split; [exists n; exact Hl | exact Hs]).
          injection Hrun as Hmsg.
          exact (py_int_message _ _ "jira_search" Hs Hmsg). }
        rewrite (search_calls d n s Hl Hs) in Hnil. discriminate.
      * discriminate.
      * apply (f_equal snd) in Hrun. rewrite Hc in Hrun. discriminate.
  - intros Hnot.
    rewrite call_tool_outcome, body_unknown_tool; [reflexivity | |];
      intros ->; apply Hnot; cbn; tauto.
Qed.

Lemma unknown_tool_iff_not_listed_witness :
  run (@call_tool Fixture.runtime Fixture.service "jira_add_comment"
         (PDict [("issue_key", PStr "PROJ-1")])) =
  (inl (Exc RuntimeError
          "Caught Exception. Error: Unknown tool: jira_add_comment"), []).
Proof.
  apply (proj2 (unknown_tool_iff_not_listed Fixture.runtime Fixture.service
                  "jira_add_comment" [("issue_key", PStr "PROJ-1")])).
  cbn. intros [Heq | [Heq | []]]; discriminate.
Defined.

(** X13.  [jira_get_issue] hands the service whatever the arguments hold
    under its four parameters, as it is: nothing is coerced or bounded, a
    [comment_limit] that is a string or negative goes through, and a
    parameter present as [None] stays [None] instead of taking the
    default. *)
Theorem get_issue_forwards_arguments_as_given
    (runtime : Runtime) (jira_service : JiraService)
    (d : list (string * pyval)) :
  exists issue_key fields expand comment_limit,
    snd (run (call_tool "jira_get_issue" (PDict d))) =
    [GetIssue issue_key fields expand comment_limit] /\
    (forall v, assoc "issue_key" d = Some v -> issue_key = v) /\
    (forall v, assoc "fields" d = Some v -> fields = v) /\
    (forall v, assoc "expand" d = Some v -> expand = v) /\
    (forall v, assoc "comment_limit" d = Some v -> comment_limit = v).
Proof.
  do 4 eexists. split; [apply get_issue_calls |].
  unfold dict_get. repeat split; intros v ->; reflexivity.
Qed.

Lemma get_issue_forwards_arguments_as_given_witness :
  exists issue_key expand,
    snd (run (@call_tool Fixture.runtime Fixture.service "jira_get_issue"
                (PDict [("issue_key", PStr "PROJ-1"); ("fields", PNone);
                        ("comment_limit", PStr "-3")]))) =
    [GetIssue issue_key PNone expand (PStr "-3")].
Proof.
  destruct (get_issue_forwards_arguments_as_given
              Fixture.runtime Fixture.service
              [("issue_key", PStr "PROJ-1"); ("fields", PNone);
               ("comment_limit", PStr "-3")])
    as (issue_key & fields & expand & comment_limit & Hc & _ & Hf & _ & Hcl).
  exists issue_key, expand.
  pose proof (Hf PNone eq_refl) as Hfields.
  pose proof (Hcl (PStr "-3") eq_refl) as Hlimit.
  subst fields comment_limit. exact Hc.
Defined.

(** ** Properties of the construction of the service *)

Section Construction.

Context {client : ClientModule}.

(** X14.  A config that is true wins over the token: the client is
    initialized once, with that very config, whatever the access token and
    the cloud id, and no config is built. *)
Theorem given_config_takes_precedence
    (access_token cloud_id : option string) (config : JiraConfig) :
  config_bool config = true ->
  JiraService_init access_token (Some config) cloud_id =
  (JiraClient_init (Some config), [ClientInitialized (Some config)]).
Proof.
  intros Htrue. unfold JiraService_init.
  destruct access_token as [token |]; [| reflexivity].
  cbn [optional_config_bool]. rewrite Htrue, andb_false_r. reflexivity.
Qed.

(** X15.  With an access token, no config that is true and no cloud id,
    the constructor returns normally after a warning and leaves the client
    uninitialized: [JiraClient.__init__] is never reached. *)
Theorem token_without_cloud_id_leaves_client_uninitialized
    (access_token cloud_id : option string) (config : option JiraConfig) :
  str_bool access_token = true ->
  optional_config_bool config = false ->
  str_bool cloud_id = false ->
  JiraService_init access_token config cloud_id =
  (inr tt, [Warned "No JIRA_URL or cloud_id provided"]) /\
  client_initializations (snd (JiraService_init access_token config cloud_id))
  = [].
Proof.
  intros Htoken Hconfig Hcloud. unfold JiraService_init.
  destruct access_token as [token |]; [| discriminate].
  rewrite Htoken, Hconfig. cbn [negb andb].
  destruct cloud_id as [id |]; [rewrite Hcloud |]; split; reflexivity.
Qed.

(** A config is built only with these arguments. *)
Lemma config_built_inv
    (access_token cloud_id : option string) (config : option JiraConfig)
    (url auth_type personal_token : string) (ssl_verify : bool) :
  In (ConfigBuilt url auth_type personal_token ssl_verify)
     (snd (JiraService_init access_token config cloud_id)) ->
  exists id,
    cloud_id = Some id /\ id <> "" /\
    access_token = Some personal_token /\ personal_token <> "" /\
    url = jira_url id /\ auth_type = "oauth" /\ ssl_verify = true.
Proof.
  unfold JiraService_init.
  destruct access_token as [token |]; [| intros [Heq | []]; discriminate].
  destruct (str_bool (Some token)) eqn:Htoken; cbn [andb];
    [| intros [Heq | []]; discriminate].
  destruct (optional_config_bool config); cbn [negb];
    [intros [Heq | []]; discriminate |].
  destruct cloud_id as [id |]; [| intros [Heq | []]; discriminate].
  destruct (str_bool (Some id)) eqn:Hid; [| intros [Heq | []]; discriminate].
  cbv zeta. intros Hin.
  assert (Heq : ConfigBuilt url auth_type personal_token ssl_verify =
                ConfigBuilt (jira_url id) "oauth" token true).
  { destruct (new_JiraConfig (jira_url id) "oauth" token true)
      as [e | built]; cbn in Hin.
    - destruct Hin as [<- | []]. reflexivity.
    - destruct Hin as [<- | [Hin | []]]; [reflexivity | discriminate]. }
  injection Heq as -> -> -> ->.
  exists id. repeat split.
  - destruct id; discriminate.
  - destruct token; discriminate.
Qed.

(** X16.  Whatever the arguments, the client is initialized at most once,
    and a config is built only from a non-empty token and a non-empty cloud
    id: its URL is the cloud endpoint of that id, its authentication is
    OAuth with the token given, and certificate checking is on. *)
Theorem built_config_is_oauth_over_the_cloud_endpoint
    (access_token cloud_id : option string) (config : option JiraConfig) :
  (List.length
     (client_initializations
        (snd (JiraService_init access_token config cloud_id))) <= 1)%nat /\
  forall url auth_type personal_token ssl_verify,
    In (ConfigBuilt url auth_type personal_token ssl_verify)
       (snd (JiraService_init access_token config cloud_id)) ->
    exists id,
      cloud_id = Some id /\ id <> "" /\
      access_token = Some personal_token /\ personal_token <> "" /\
      url = ("https://api.atlassian.com/ex/jira/" ++ id)%string /\
      auth_type = "oauth" /\ ssl_verify = true.
Proof.
  split.
  - unfold JiraService_init.
    destruct access_token as [token |]; [| cbn; lia].
    destruct (str_bool (Some token) && negb (optional_config_bool config));
      [| cbn; lia].
    destruct cloud_id as [id |]; [| cbn; lia].
    destruct (str_bool (Some id)); [| cbn; lia].
    cbv zeta.
    destruct (new_JiraConfig (jira_url id) "oauth" token true); cbn; lia.
  - intros url auth_type personal_token ssl_verify Hin.
    exact (config_built_inv _ _ _ _ _ _ _ Hin).
Qed.

(** X17.  The endpoint tells the cloud id: two constructions that build a
    config with the same URL were given the same cloud id. *)
Theorem same_endpoint_same_cloud_id
    (token1 token2 cloud1 cloud2 : option string)
    (config1 config2 : option JiraConfig)
    (url auth1 auth2 personal1 personal2 : string) (ssl1 ssl2 : bool) :
  In (ConfigBuilt url auth1 personal1 ssl1)
     (snd (JiraService_init token1 config1 cloud1)) ->
  In (ConfigBuilt url auth2 personal2 ssl2)
     (snd (JiraService_init token2 config2 cloud2)) ->
  cloud1 = cloud2.
Proof.
  intros H1 H2.
  destruct (config_built_inv _ _ _ _ _ _ _ H1)
    as (id1 & -> & _ & _ & _ & Hurl1 & _).
  destruct (config_built_inv _ _ _ _ _ _ _ H2)
    as (id2 & -> & _ & _ & _ & Hurl2 & _).
  rewrite Hurl1 in Hurl2. unfold jira_url in Hurl2.
  apply string_app_inv in Hurl2. congruence.
Qed.

End Construction.

Lemma given_config_takes_precedence_witness :
  @JiraService_init ClientFixture.module (Some "token-1")
    (Some {| ClientFixture.url := "https://jira.example.org";
             ClientFixture.auth_type := "basic";
             ClientFixture.personal_token := "";
             ClientFixture.ssl_verify := false |})
    (Some "cloud-9") =
  (inr tt,
   [@ClientInitialized ClientFixture.module
      (Some {| ClientFixture.url := "https://jira.example.org";
               ClientFixture.auth_type := "basic";
               ClientFixture.personal_token := "";
               ClientFixture.ssl_verify := false |})]).
Proof.
  apply (@given_config_takes_precedence ClientFixture.module).
  reflexivity.
Defined.

Lemma token_without_cloud_id_leaves_client_uninitialized_witness :
  @JiraService_init ClientFixture.module (Some "token-1") None (Some "") =
  (inr tt, [@Warned ClientFixture.module "No JIRA_URL or cloud_id provided"]).
Proof.
  apply (@token_without_cloud_id_leaves_client_uninitialized
           ClientFixture.module (Some "token-1") (Some "") None);
    reflexivity.
Defined.

Lemma built_config_is_oauth_over_the_cloud_endpoint_witness :
  exists id,
    Some "cloud-9" = Some id /\ id <> "" /\
    Some "token-1" = Some "token-1" /\ "token-1" <> "" /\
    "https://api.atlassian.com/ex/jira/cloud-9" =
    ("https://api.atlassian.com/ex/jira/" ++ id)%string /\
    "oauth" = "oauth" /\ true = true.
Proof.
  apply (proj2 (@built_config_is_oauth_over_the_cloud_endpoint
                  ClientFixture.module (Some "token-1") (Some "cloud-9") None)
           "https://api.atlassian.com/ex/jira/cloud-9" "oauth" "token-1" true).
  left. reflexivity.
Defined.

Lemma same_endpoint_same_cloud_id_witness : Some "cloud-9" = Some "cloud-9".
Proof.
  apply (@same_endpoint_same_cloud_id ClientFixture.module
           (Some "token-1") (Some "token-2") (Some "cloud-9") (Some "cloud-9")
           None None "https://api.atlassian.com/ex/jira/cloud-9"
           "oauth" "oauth" "token-1" "token-2" true true);
    left; reflexivity.
Defined.
